(** * EPIC test backend: registration, payment verification, results, history

    A shallow embedding of [main.py] and [schemas.py] and the properties of
    the request handlers.

    Conventions of the embedding.
    - A Python [str] is a Rocq [string] holding the UTF-8 bytes of the text, so
      [s.encode("utf-8")] is [list_byte_of_string]; operations that count
      characters ([s[:50]]) count UTF-8 lead bytes.
    - A Python [bytes] is a [list byte].
    - A Python [int] is a [Z]; a Python [float] is an abstract type with its
      [str()] rendering, since the handlers only store and print scores.
    - A stored document is a record; a field the handlers read with [.get]
      is an [option], [None] standing for an absent (or null) key.
    - Handlers run in a state-and-exception monad over the document store and
      the clock; an exception keeps the writes made before it. *)

From Stdlib Require Import ZArith NArith List Bool Lia.
From Stdlib.Strings Require Import String Ascii Byte.
From Stdlib Require Import DecimalString Sorted Permutation.
Import ListNotations.

Local Open Scope string_scope.
Local Open Scope Z_scope.

(* ================================================================== *)
(** * Python runtime: strings, integers, bytes *)

Module Py.

(** The line feed of the ["\n"] escapes. *)
Definition LF : string := String (ascii_of_nat 10) "".

(** Truthiness of a [str]: non-empty. *)
Definition truthy (s : string) : bool :=
  match s with
  | EmptyString => false
  | String _ _ => true
  end.

(** Truthiness of an [Optional[str]]: neither [None] nor empty. *)
Definition truthy_opt (o : option string) : bool :=
  match o with
  | Some s => truthy s
  | None => false
  end.

(** [x in [a, b, ...]] on strings. *)
Fixpoint str_in (x : string) (l : list string) : bool :=
  match l with
  | [] => false
  | y :: l' => String.eqb x y || str_in x l'
  end.

(** [str(n)] for an [int]. *)
Definition str_int (n : Z) : string := NilZero.string_of_int (Z.to_int n).

(** [f"{v}"] for a value that is an [int] or [None]. *)
Definition format_int (v : option Z) : string :=
  match v with
  | Some n => str_int n
  | None => "None"
  end.

(** A UTF-8 continuation byte has the form [10xxxxxx]. *)
Definition is_continuation (c : ascii) : bool :=
  let n := N_of_ascii c in ((128 <=? n) && (n <? 192))%N.

(** [len(s)]: the number of code points, i.e. of bytes that start one. *)
Fixpoint len (s : string) : nat :=
  match s with
  | EmptyString => O
  | String c s' => if is_continuation c then len s' else S (len s')
  end.

(** [s[:n]]: the first [n] code points.  A code point is copied with the
    continuation bytes that follow its lead byte. *)
Fixpoint slice_to (n : nat) (s : string) : string :=
  match s with
  | EmptyString => EmptyString
  | String c s' =>
      if is_continuation c then String c (slice_to n s')
      else match n with
           | O => EmptyString
           | S n' => String c (slice_to n' s')
           end
  end.

(** [a == b] on values that are an [int] or [None]. *)
Definition eq_opt_int (a b : option Z) : bool :=
  match a, b with
  | Some x, Some y => x =? y
  | None, None => true
  | _, _ => false
  end.

(** [sorted(l, key=key)] with integer keys: a stable sort, here by
    insertion.  An element goes before the first one whose key is not
    smaller, so elements with equal keys keep their order. *)
Fixpoint insert_by {A : Type} (key : A -> Z) (x : A) (l : list A) : list A :=
  match l with
  | [] => [x]
  | y :: l' =>
      if key x <=? key y then x :: y :: l' else y :: insert_by key x l'
  end.

Fixpoint sorted {A : Type} (key : A -> Z) (l : list A) : list A :=
  match l with
  | [] => []
  | x :: l' => insert_by key x (sorted key l')
  end.

(** [n] zeros. *)
Fixpoint zeros (n : nat) : string :=
  match n with
  | O => EmptyString
  | S n' => String "0"%char (zeros n')
  end.

(** The zero padding of [%d], [%m] and [%Y] in [strftime]: [s] filled with
    zeros on the left up to [width] characters. *)
Definition zero_pad (width : nat) (s : string) : string :=
  (zeros (width - String.length s)%nat ++ s)%string.

End Py.

(* ================================================================== *)
(** * [base64.b64encode] and the standard decoding (RFC 4648) *)

Module Base64.

Local Open Scope N_scope.

Definition alphabet : string :=
  "ABCDEFGHIJKLMNOPQRSTUVWXYZabcdefghijklmnopqrstuvwxyz0123456789+/".

Definition pad : ascii := "="%char.

(** The character of a 6-bit value. *)
Definition char_of (i : N) : ascii :=
  match String.get (N.to_nat i) alphabet with
  | Some c => c
  | None => pad
  end.

(** Encoding of a list of byte values, three bytes to four characters,
    the last group padded with [=]. *)
Fixpoint encode_values (bs : list N) : string :=
  match bs with
  | [] => EmptyString
  | [a] =>
      String (char_of (a / 4))
        (String (char_of ((a mod 4) * 16))
           (String pad (String pad EmptyString)))
  | [a; b] =>
      String (char_of (a / 4))
        (String (char_of ((a mod 4) * 16 + b / 16))
           (String (char_of ((b mod 16) * 4))
              (String pad EmptyString)))
  | a :: b :: c :: rest =>
      String (char_of (a / 4))
        (String (char_of ((a mod 4) * 16 + b / 16))
           (String (char_of ((b mod 16) * 4 + c / 64))
              (String (char_of (c mod 64)) (encode_values rest))))
  end.

(** [base64.b64encode(raw).decode("utf-8")]: the output is ASCII, so the
    decoding to [str] keeps the bytes. *)
Definition b64encode (raw : list byte) : string :=
  encode_values (map Byte.to_N raw).

(** The 6-bit value of a character of the alphabet. *)
Definition value_of (c : ascii) : option N :=
  let n := N_of_ascii c in
  if (65 <=? n) && (n <=? 90) then Some (n - 65)
  else if (97 <=? n) && (n <=? 122) then Some (n - 71)
  else if (48 <=? n) && (n <=? 57) then Some (n + 4)
  else if n =? 43 then Some 62
  else if n =? 47 then Some 63
  else None.

Definition is_pad (c : ascii) : bool := Ascii.eqb c pad.

(** The bytes of one group of four characters; [=] only as the last one or
    the last two characters. *)
Definition decode_group (c1 c2 c3 c4 : ascii) : option (list N) :=
  match value_of c1, value_of c2 with
  | Some v1, Some v2 =>
      if is_pad c3 then
        if is_pad c4 then Some [v1 * 4 + v2 / 16] else None
      else
        match value_of c3 with
        | Some v3 =>
            if is_pad c4 then
              Some [v1 * 4 + v2 / 16; (v2 mod 16) * 16 + v3 / 4]
            else
              match value_of c4 with
              | Some v4 =>
                  Some [v1 * 4 + v2 / 16; (v2 mod 16) * 16 + v3 / 4;
                        (v3 mod 4) * 64 + v4]
              | None => None
              end
        | None => None
        end
  | _, _ => None
  end.

(** Decoding to byte values: groups of four characters; a padded group ends
    the text. *)
Fixpoint decode_values (s : string) : option (list N) :=
  match s with
  | EmptyString => Some []
  | String c1 (String c2 (String c3 (String c4 rest))) =>
      match decode_group c1 c2 c3 c4 with
      | Some g =>
          if is_pad c4 then
            match rest with
            | EmptyString => Some g
            | String _ _ => None
            end
          else
            match decode_values rest with
            | Some tl => Some (g ++ tl)%list
            | None => None
            end
      | None => None
      end
  | _ => None
  end.

Fixpoint bytes_of_values (vs : list N) : option (list byte) :=
  match vs with
  | [] => Some []
  | v :: vs' =>
      match Byte.of_N v, bytes_of_values vs' with
      | Some b, Some bs => Some (b :: bs)
      | _, _ => None
      end
  end.

(** [base64.b64decode] on canonical input. *)
Definition b64decode (s : string) : option (list byte) :=
  match decode_values s with
  | Some vs => bytes_of_values vs
  | None => None
  end.

End Base64.

(* ================================================================== *)
(** * Time, identifiers, exceptions *)

(** A [datetime.datetime] value. *)
Record datetime := {
  year : Z; month : Z; day : Z;
  hour : Z; minute : Z; second : Z; microsecond : Z
}.

(** [d.strftime('%d-%m-%Y')]. *)
Definition strftime_dmY (d : datetime) : string :=
  (Py.zero_pad 2 (Py.str_int (day d)) ++ "-"
   ++ Py.zero_pad 2 (Py.str_int (month d)) ++ "-"
   ++ Py.zero_pad 4 (Py.str_int (year d)))%string.

(** One reading of the clock: [datetime.now()] is the local time,
    [datetime.now(timezone.utc)] the UTC time of the same instant. *)
Record instant := { local : datetime; utc : datetime }.

(** A [bson.ObjectId]: a 12-byte value, kept as a number. *)
Definition oid := N.

Module Bson.

Local Open Scope N_scope.

Definition hex_value (c : ascii) : option N :=
  let n := N_of_ascii c in
  if (48 <=? n) && (n <=? 57) then Some (n - 48)
  else if (97 <=? n) && (n <=? 102) then Some (n - 87)
  else if (65 <=? n) && (n <=? 70) then Some (n - 55)
  else None.

Fixpoint hex_number (acc : N) (s : string) : option N :=
  match s with
  | EmptyString => Some acc
  | String c s' =>
      match hex_value c with
      | Some v => hex_number (acc * 16 + v) s'
      | None => None
      end
  end.

(** [bson.ObjectId(s)] for a [str]: 24 hexadecimal digits, anything else
    raises [InvalidId] ([None] here). *)
Definition ObjectId (s : string) : option oid :=
  if (String.length s =? 24)%nat then hex_number 0 s else None.

Definition hex_char (v : N) : ascii :=
  if v <? 10 then ascii_of_N (48 + v) else ascii_of_N (87 + v).

Fixpoint hex_digits (n : nat) (v : N) (acc : string) : string :=
  match n with
  | O => acc
  | S n' => hex_digits n' (v / 16) (String (hex_char (v mod 16)) acc)
  end.

(** [str(oid)]: 24 lowercase hexadecimal digits. *)
Definition str (o : oid) : string := hex_digits 24 o EmptyString.

End Bson.

(** The exceptions the handlers meet. *)
Inductive exn :=
| HTTPException (status_code : Z) (detail : string)
| ValidationError (model field : string)
| InvalidId (value : string).

(** What a call produces: a value, or an exception. *)
Inductive Outcome (A : Type) :=
| Return (a : A)
| Raise (e : exn).

Arguments Return {A} a.
Arguments Raise {A} e.

(** The status line of the response the framework sends: 200 for a returned
    value, the code of an [HTTPException], 500 for any other exception. *)
Definition status_code_of {A : Type} (r : Outcome A) : Z :=
  match r with
  | Return _ => 200
  | Raise (HTTPException code _) => code
  | Raise _ => 500
  end.

(* ================================================================== *)
(** * schemas.py *)

Module Student.
Record t := mk { npm : string; name : string; email : string }.

(** [Student(npm=..., name=..., email=...)]: [EmailStr] validates the
    address and keeps its normalised form. *)
Definition new (EmailStr : string -> option string)
    (npm name email : string) : Outcome t :=
  match EmailStr email with
  | Some e => Return (mk npm name e)
  | None => Raise (ValidationError "Student" "email")
  end.
End Student.

Module Payment.
Record t := mk {
  npm : string;
  name : string;
  email : string;
  file_name : option string;
  file_mime : option string;
  file_data_b64 : option string;
  status : string;
  verified_by : option string;
  verified_at : option datetime
}.

(** [Payment(...)] as [create_registration] calls it: [verified_by] and
    [verified_at] take their default [None]. *)
Definition new (EmailStr : string -> option string)
    (npm name email : string)
    (file_name file_mime file_data_b64 : option string)
    (status : string) : Outcome t :=
  match EmailStr email with
  | Some e =>
      if Py.str_in status ["pending"; "approved"; "rejected"] then
        Return (mk npm name e file_name file_mime file_data_b64 status
                  None None)
      else Raise (ValidationError "Payment" "status")
  | None => Raise (ValidationError "Payment" "email")
  end.
End Payment.

Module Test.
Record t (float : Type) := mk {
  npm : string;
  attempt : Z;
  score : option float;
  status : string;
  taken_at : option datetime
}.
Arguments mk {float}.
Arguments npm {float}.
Arguments attempt {float}.
Arguments score {float}.
Arguments status {float}.
Arguments taken_at {float}.

(** [Test(...)]: [attempt] has [ge=1], [status] is one of two literals. *)
Definition new {float : Type} (npm : string) (attempt : Z)
    (score : option float) (status : string)
    (taken_at : option datetime) : Outcome (t float) :=
  if attempt <? 1 then Raise (ValidationError "Test" "attempt")
  else if Py.str_in status ["pass"; "fail"] then
    Return (mk npm attempt score status taken_at)
  else Raise (ValidationError "Test" "status").
End Test.

Module Certificate.
Record t := mk { npm : string; attempt : Z; issued_at : option datetime }.

(** [Certificate(...)]: no constraint beyond the field types. *)
Definition new (npm : string) (attempt : Z)
    (issued_at : option datetime) : Outcome t :=
  Return (mk npm attempt issued_at).
End Certificate.

(* ================================================================== *)
(** * The document store *)

(** Stored documents: the fields of the schema with the identifier the store
    gives and the creation time the adapter injects.  [attempt] is read with
    [.get("attempt", 0)] and may be absent. *)

Module StudentDoc.
Record t := mk {
  _id : oid;
  npm : string;
  name : string;
  email : string;
  created_at : datetime;
  updated_at : option datetime
}.
End StudentDoc.

Module PaymentDoc.
Record t := mk {
  _id : oid;
  npm : string;
  name : string;
  email : string;
  file_name : option string;
  file_mime : option string;
  file_data_b64 : option string;
  status : string;
  verified_by : option string;
  verified_at : option datetime;
  created_at : datetime
}.
End PaymentDoc.

Module TestDoc.
Record t (float : Type) := mk {
  _id : oid;
  npm : string;
  attempt : option Z;
  score : option float;
  status : string;
  taken_at : option datetime;
  created_at : datetime
}.
Arguments mk {float}.
Arguments _id {float}.
Arguments npm {float}.
Arguments attempt {float}.
Arguments score {float}.
Arguments status {float}.
Arguments taken_at {float}.
Arguments created_at {float}.
End TestDoc.

Module CertificateDoc.
Record t := mk {
  _id : oid;
  npm : string;
  attempt : option Z;
  issued_at : option datetime;
  created_at : datetime
}.
End CertificateDoc.

(* ================================================================== *)
(** * main.py: request and response shapes *)

(** The uploaded file of a multipart form: [UploadFile]. *)
Record UploadFile := {
  filename : option string;
  content_type : option string;
  content : list byte
}.

Module RegistrationOut.
Record t := mk { message : string; payment_id : string }.
End RegistrationOut.

Module PendingOut.
Record t := mk {
  _id : string;
  npm : string;
  name : string;
  email : string;
  file_url : option string
}.
End PendingOut.

Module VerifyBody.
Record t := mk { status : string }.
End VerifyBody.

Module VerifyOut.
Record t := mk { ok : bool }.
End VerifyOut.

Module ResultBody.
Record t (float : Type) := mk {
  npm : string;
  attempt : Z;
  score : float;
  status : string
}.
Arguments mk {float}.
Arguments npm {float}.
Arguments attempt {float}.
Arguments score {float}.
Arguments status {float}.
End ResultBody.

Module ResultOut.
Record t := mk { ok : bool; certificate_url : option string }.
End ResultOut.

Module HistoryOut.
Record t (float : Type) := mk {
  id : string;
  attempt : option Z;
  score : option float;
  status : string;
  taken_at : option datetime;
  certificate_url : option string
}.
Arguments mk {float}.
Arguments id {float}.
Arguments attempt {float}.
Arguments score {float}.
Arguments status {float}.
Arguments taken_at {float}.
Arguments certificate_url {float}.
End HistoryOut.

(* ================================================================== *)
(** * The runtime, the store and the handler monad *)

(** What the handlers take from the Python runtime and its libraries
    without computing with it: the [float] of a score with its [str()], and
    [EmailStr] of pydantic, which gives the normalised address, or [None]
    when the text is not an e-mail address. *)
Class Runtime := {
  float : Type;
  str_float : float -> string;
  EmailStr : string -> option string
}.

Section Backend.

Context {runtime : Runtime}.

(** The four collections and the counter the next identifier is taken
    from. *)
Record Store := {
  student : list StudentDoc.t;
  payment : list PaymentDoc.t;
  test : list (TestDoc.t float);
  certificate : list CertificateDoc.t;
  next_id : oid
}.

(** The world a request runs in: the store, and the clock as the sequence of
    its readings with the number of readings made so far. *)
Record World := {
  db : Store;
  clock : nat -> instant;
  ticks : nat
}.

Definition with_db (s : Store) (w : World) : World :=
  {| db := s; clock := clock w; ticks := ticks w |}.

(** ** The handler monad *)

Definition M (A : Type) : Type := World -> Outcome A * World.

Definition ret {A : Type} (a : A) : M A := fun w => (Return a, w).

Definition raise {A : Type} (e : exn) : M A := fun w => (Raise e, w).

Definition bind {A B : Type} (m : M A) (k : A -> M B) : M B :=
  fun w =>
    match m w with
    | (Return a, w') => k a w'
    | (Raise e, w') => (Raise e, w')
    end.

(** A pure call that may raise, such as the construction of a model. *)
Definition lift {A : Type} (r : Outcome A) : M A := fun w => (r, w).

Notation "x <- m ;; k" := (bind m (fun x => k))
  (at level 61, m at next level, right associativity).
Notation "m ;;; k" := (bind m (fun _ => k))
  (at level 61, right associativity).

(** [datetime.now(timezone.utc)] and [datetime.now()]: each call reads the
    clock once. *)
Definition tick (w : World) : World :=
  {| db := db w; clock := clock w; ticks := S (ticks w) |}.

Definition now_utc : M datetime :=
  fun w => (Return (utc (clock w (ticks w))), tick w).

Definition now_local : M datetime :=
  fun w => (Return (local (clock w (ticks w))), tick w).

(** ** Collections *)

(** [db[name]]: how a collection is read from and written to the store. *)
Record Collection (D : Type) := {
  docs : Store -> list D;
  put_docs : list D -> Store -> Store
}.
Arguments docs {D}.
Arguments put_docs {D}.

Definition student_coll : Collection StudentDoc.t :=
  {| docs := student;
     put_docs := fun l s =>
       {| student := l; payment := payment s; test := test s;
          certificate := certificate s; next_id := next_id s |} |}.

Definition payment_coll : Collection PaymentDoc.t :=
  {| docs := payment;
     put_docs := fun l s =>
       {| student := student s; payment := l; test := test s;
          certificate := certificate s; next_id := next_id s |} |}.

Definition test_coll : Collection (TestDoc.t float) :=
  {| docs := test;
     put_docs := fun l s =>
       {| student := student s; payment := payment s; test := l;
          certificate := certificate s; next_id := next_id s |} |}.

Definition certificate_coll : Collection CertificateDoc.t :=
  {| docs := certificate;
     put_docs := fun l s =>
       {| student := student s; payment := payment s; test := test s;
          certificate := l; next_id := next_id s |} |}.

(** The identifier of the next insertion. *)
Definition fresh_id : M oid :=
  fun w =>
    let s := db w in
    (Return (next_id s),
     with_db {| student := student s; payment := payment s; test := test s;
                certificate := certificate s;
                next_id := N.succ (next_id s) |} w).

(** Modelled from the spec: [create_document] of the absent database
    module.  It serialises the record with a creation timestamp, appends the
    document to the named collection and returns the new identifier as a
    string.  [dump] is the serialisation of the model at hand. *)
Definition create_document {A D : Type} (coll : Collection D)
    (dump : oid -> datetime -> A -> D) (data : A) : M string :=
  created <- now_utc ;;
  id <- fresh_id ;;
  fun w =>
    (Return (Bson.str id),
     with_db (put_docs coll (docs coll (db w) ++ [dump id created data])
                (db w)) w).

(** Modelled from the spec: [get_documents] of the absent database module,
    all documents of the collection that match the filter, in store order. *)
Definition get_documents {D : Type} (coll : Collection D)
    (matches : D -> bool) : M (list D) :=
  fun w => (Return (filter matches (docs coll (db w))), w).

(** [db[name].find_one(filter)]: the first match. *)
Definition find_one {D : Type} (coll : Collection D)
    (matches : D -> bool) : M (option D) :=
  fun w => (Return (find matches (docs coll (db w))), w).

(** [$set] on the first document that matches. *)
Fixpoint update_first {D : Type} (matches : D -> bool) (set : D -> D)
    (l : list D) : list D :=
  match l with
  | [] => []
  | d :: l' =>
      if matches d then set d :: l' else d :: update_first matches set l'
  end.

(** [db[name].update_one(filter, {"$set": ...})]; the value is the
    [matched_count] of the result. *)
Definition update_one {D : Type} (coll : Collection D)
    (matches : D -> bool) (set : D -> D) : M nat :=
  fun w =>
    let l := docs coll (db w) in
    (Return (if existsb matches l then 1%nat else 0%nat),
     with_db (put_docs coll (update_first matches set l) (db w)) w).

(** The serialisations of the four models. *)
Definition dump_student (id : oid) (created : datetime) (s : Student.t)
  : StudentDoc.t :=
  StudentDoc.mk id (Student.npm s) (Student.name s) (Student.email s)
    created None.

Definition dump_payment (id : oid) (created : datetime) (p : Payment.t)
  : PaymentDoc.t :=
  PaymentDoc.mk id (Payment.npm p) (Payment.name p) (Payment.email p)
    (Payment.file_name p) (Payment.file_mime p) (Payment.file_data_b64 p)
    (Payment.status p) (Payment.verified_by p) (Payment.verified_at p)
    created.

Definition dump_test (id : oid) (created : datetime) (t : Test.t float)
  : TestDoc.t float :=
  TestDoc.mk id (Test.npm t) (Some (Test.attempt t)) (Test.score t)
    (Test.status t) (Test.taken_at t) created.

Definition dump_certificate (id : oid) (created : datetime)
    (c : Certificate.t) : CertificateDoc.t :=
  CertificateDoc.mk id (Certificate.npm c) (Some (Certificate.attempt c))
    (Certificate.issued_at c) created.


(* ================================================================== *)
(** * main.py: the handlers *)

(** ** [POST /registrations] *)

Definition allowed_mime : list string :=
  ["image/jpeg"; "image/png"; "application/pdf"].

(** The [$set] of the student upsert. *)
Definition set_student (name email : string) (now : datetime)
    (s : StudentDoc.t) : StudentDoc.t :=
  StudentDoc.mk (StudentDoc._id s) (StudentDoc.npm s) name email
    (StudentDoc.created_at s) (Some now).

(** Lines 39 to 44: create the student if absent, else overwrite the name
    and the e-mail address and stamp the update time. *)
Definition upsert_student (npm name email : string) : M unit :=
  existing <- find_one student_coll
                (fun s => String.eqb (StudentDoc.npm s) npm) ;;
  match existing with
  | None =>
      s <- lift (Student.new EmailStr npm name email) ;;
      create_document student_coll dump_student s ;;;
      ret tt
  | Some _ =>
      now <- now_utc ;;
      update_one student_coll
        (fun s => String.eqb (StudentDoc.npm s) npm)
        (set_student name email now) ;;;
      ret tt
  end.

(** Lines 46 to 57: the three file fields, or the 400 of a refused type. *)
Definition read_payment_proof (payment_proof : option UploadFile)
  : M (option string * option string * option string) :=
  match payment_proof with
  | None => ret (None, None, None)
  | Some f =>
      let file_mime :=
        match content_type f with
        | Some m => if Py.truthy m then m else "application/octet-stream"
        | None => "application/octet-stream"
        end in
      if negb (Py.str_in file_mime allowed_mime) then
        raise (HTTPException 400
                 "Format file tidak didukung. Gunakan JPG/PNG/PDF")
      else
        ret (filename f, Some file_mime,
             Some (Base64.b64encode (content f)))
  end.

Definition create_registration (npm name email : string)
    (payment_proof : option UploadFile) : M RegistrationOut.t :=
  if negb (Py.truthy npm) || negb (Py.truthy name) || negb (Py.truthy email)
  then raise (HTTPException 400 "Data tidak lengkap")
  else
    upsert_student npm name email ;;;
    file <- read_payment_proof payment_proof ;;
    let '(file_name, file_mime, file_b64) := file in
    pay <- lift (Payment.new EmailStr npm name email
                   file_name file_mime file_b64 "pending") ;;
    pid <- create_document payment_coll dump_payment pay ;;
    ret (RegistrationOut.mk "Registrasi tersimpan" pid).

(** ** [GET /admin/pending] *)

(** The body of the loop: one entry of the listing. *)
Definition pending_entry (p : PaymentDoc.t) : PendingOut.t :=
  let file_url :=
    if Py.truthy_opt (PaymentDoc.file_data_b64 p)
       && Py.truthy_opt (PaymentDoc.file_mime p)
    then
      match PaymentDoc.file_mime p, PaymentDoc.file_data_b64 p with
      | Some mime, Some data =>
          Some ("data:" ++ mime ++ ";base64," ++ data)%string
      | _, _ => None
      end
    else None in
  PendingOut.mk (Bson.str (PaymentDoc._id p)) (PaymentDoc.npm p)
    (PaymentDoc.name p) (PaymentDoc.email p) file_url.

Definition list_pending : M (list PendingOut.t) :=
  payments <- get_documents payment_coll
                (fun p => String.eqb (PaymentDoc.status p) "pending") ;;
  ret (map pending_entry payments).

(** ** [POST /admin/verify/{payment_id}] *)

(** The [$set] of the verification. *)
Definition set_payment_status (status : string) (now : datetime)
    (p : PaymentDoc.t) : PaymentDoc.t :=
  PaymentDoc.mk (PaymentDoc._id p) (PaymentDoc.npm p) (PaymentDoc.name p)
    (PaymentDoc.email p) (PaymentDoc.file_name p) (PaymentDoc.file_mime p)
    (PaymentDoc.file_data_b64 p) status (PaymentDoc.verified_by p)
    (Some now) (PaymentDoc.created_at p).

Definition verify_payment (payment_id : string) (body : VerifyBody.t)
  : M VerifyOut.t :=
  if negb (Py.str_in (VerifyBody.status body) ["approved"; "rejected"])
  then raise (HTTPException 400 "Status tidak valid")
  else
    id <- lift (match Bson.ObjectId payment_id with
                | Some o => Return o
                | None => Raise (InvalidId payment_id)
                end) ;;
    now <- now_utc ;;
    matched_count <- update_one payment_coll
                       (fun p => N.eqb (PaymentDoc._id p) id)
                       (set_payment_status (VerifyBody.status body) now) ;;
    if Nat.eqb matched_count 0
    then raise (HTTPException 404 "Payment tidak ditemukan")
    else ret (VerifyOut.mk true).

(** ** [POST /admin/result] *)

(** Line 125: the text of the certificate, as UTF-8 bytes. *)
Definition submit_result_pdf_content (body : ResultBody.t float)
    (now : datetime) : list byte :=
  list_byte_of_string
    ("SERTIFIKAT EPIC" ++ Py.LF
     ++ "NPM: " ++ ResultBody.npm body ++ Py.LF
     ++ "Attempt: " ++ Py.str_int (ResultBody.attempt body) ++ Py.LF
     ++ "Skor: " ++ str_float (ResultBody.score body) ++ Py.LF
     ++ "Tanggal: " ++ strftime_dmY now ++ Py.LF)%string.

(** Lines 125 to 127: the certificate link. *)
Definition submit_result_cert_url (body : ResultBody.t float)
    (now : datetime) : string :=
  let pdf_content := submit_result_pdf_content body now in
  let b64 := Base64.b64encode pdf_content in
  ("data:application/pdf;base64," ++ b64)%string.

Definition submit_result (body : ResultBody.t float) : M ResultOut.t :=
  if negb (Py.str_in (ResultBody.status body) ["pass"; "fail"])
  then raise (HTTPException 400 "Status hasil tidak valid")
  else
    taken_at <- now_utc ;;
    t <- lift (Test.new (ResultBody.npm body) (ResultBody.attempt body)
                 (Some (ResultBody.score body)) (ResultBody.status body)
                 (Some taken_at)) ;;
    create_document test_coll dump_test t ;;;
    cert_url <-
      (if String.eqb (ResultBody.status body) "pass" then
         now <- now_local ;;
         let cert_url := submit_result_cert_url body now in
         issued_at <- now_utc ;;
         c <- lift (Certificate.new (ResultBody.npm body)
                      (ResultBody.attempt body) (Some issued_at)) ;;
         create_document certificate_coll dump_certificate c ;;;
         ret (Some cert_url)
       else ret None) ;;
    ret (ResultOut.mk true cert_url).

(** ** [GET /students/{npm}/history] *)

(** [f"{v}"] for a score that is a [float] or [None]. *)
Definition format_score (v : option float) : string :=
  match v with
  | Some x => str_float x
  | None => "None"
  end.

(** Line 147: the text of the regenerated certificate, as UTF-8 bytes. *)
Definition student_history_pdf_content (npm : string) (t : TestDoc.t float)
    (now : datetime) : list byte :=
  list_byte_of_string
    ("SERTIFIKAT EPIC" ++ Py.LF
     ++ "NPM: " ++ npm ++ Py.LF
     ++ "Attempt: " ++ Py.format_int (TestDoc.attempt t) ++ Py.LF
     ++ "Skor: " ++ format_score (TestDoc.score t) ++ Py.LF
     ++ "Tanggal: " ++ strftime_dmY now ++ Py.LF)%string.

(** Lines 147 to 149: the regenerated certificate link. *)
Definition student_history_cert_url (npm : string) (t : TestDoc.t float)
    (now : datetime) : string :=
  let pdf_content := student_history_pdf_content npm t now in
  let b64 := Base64.b64encode pdf_content in
  ("data:application/pdf;base64," ++ b64)%string.

(** The key of the sort: [x.get("attempt", 0)]. *)
Definition attempt_key (x : TestDoc.t float) : Z :=
  match TestDoc.attempt x with
  | Some a => a
  | None => 0
  end.

(** The filter of line 143: [{"npm": npm, "attempt": t.get("attempt")}]. *)
Definition certificate_matches (npm : string) (attempt : option Z)
    (c : CertificateDoc.t) : bool :=
  String.eqb (CertificateDoc.npm c) npm
  && Py.eq_opt_int (CertificateDoc.attempt c) attempt.

(** The body of the loop: the entry of one test. *)
Definition history_entry (npm : string) (t : TestDoc.t float)
  : M (HistoryOut.t float) :=
  let t_id := Bson.str (TestDoc._id t) in
  let status := TestDoc.status t in
  cert <- find_one certificate_coll
            (certificate_matches npm (TestDoc.attempt t)) ;;
  cert_url <-
    (if String.eqb status "pass"
        && match cert with Some _ => true | None => false end
     then
       now <- now_local ;;
       ret (Some (student_history_cert_url npm t now))
     else ret None) ;;
  ret (HistoryOut.mk t_id (TestDoc.attempt t) (TestDoc.score t) status
         (TestDoc.taken_at t) cert_url).

(** A [for] loop that appends one result per element. *)
Fixpoint for_each {A B : Type} (f : A -> M B) (l : list A) : M (list B) :=
  match l with
  | [] => ret []
  | x :: l' =>
      y <- f x ;;
      ys <- for_each f l' ;;
      ret (y :: ys)
  end.

Definition student_history (npm : string) : M (list (HistoryOut.t float)) :=
  tests <- get_documents test_coll
             (fun t => String.eqb (TestDoc.npm t) npm) ;;
  let tests_sorted := Py.sorted attempt_key tests in
  for_each (history_entry npm) tests_sorted.

End Backend.

Arguments docs {runtime D}.
Arguments put_docs {runtime D}.

(* ================================================================== *)
(** * main.py: [GET /test] *)

(** Modelled from the spec: the process-wide store handle [db] of the absent
    database module, as [test_database] uses it.  [name] is the attribute
    [hasattr] looks for; [list_collection_names] gives the names or raises
    an exception with the given text. *)
Record Database := {
  name : option string;
  list_collection_names : string + list string
}.

(** The response dictionary of [test_database]. *)
Record Diagnostics := {
  backend : string;
  database : string;
  database_url : option string;
  database_name : option string;
  connection_status : string;
  collections : list string
}.

Definition set_database (v : string) (r : Diagnostics) : Diagnostics :=
  {| backend := backend r; database := v; database_url := database_url r;
     database_name := database_name r;
     connection_status := connection_status r;
     collections := collections r |}.

Definition set_database_url (v : string) (r : Diagnostics) : Diagnostics :=
  {| backend := backend r; database := database r; database_url := Some v;
     database_name := database_name r;
     connection_status := connection_status r;
     collections := collections r |}.

Definition set_database_name (v : string) (r : Diagnostics) : Diagnostics :=
  {| backend := backend r; database := database r;
     database_url := database_url r; database_name := Some v;
     connection_status := connection_status r;
     collections := collections r |}.

Definition set_connection_status (v : string) (r : Diagnostics)
  : Diagnostics :=
  {| backend := backend r; database := database r;
     database_url := database_url r; database_name := database_name r;
     connection_status := v; collections := collections r |}.

Definition set_collections (v : list string) (r : Diagnostics)
  : Diagnostics :=
  {| backend := backend r; database := database r;
     database_url := database_url r; database_name := database_name r;
     connection_status := connection_status r; collections := v |}.

(** Lines 162 to 169. *)
Definition initial_response : Diagnostics :=
  {| backend := "✅ Running";
     database := "❌ Not Available";
     database_url := None;
     database_name := None;
     connection_status := "Not Connected";
     collections := [] |}.

(** Lines 170 to 182: the [try] block and its handler.  The assignments made
    before the exception stay in the dictionary. *)
Definition probe_database (db : option Database) (response : Diagnostics)
  : Diagnostics :=
  match db with
  | Some d =>
      let response := set_database "✅ Available" response in
      let response := set_database_url "✅ Configured" response in
      let response :=
        set_database_name
          (match name d with Some n => n | None => "✅ Connected" end)
          response in
      let response := set_connection_status "Connected" response in
      match list_collection_names d with
      | inr names =>
          let response := set_collections (firstn 10 names) response in
          set_database "✅ Connected & Working" response
      | inl e =>
          set_database ("❌ Error: " ++ Py.slice_to 50 e) response
      end
  | None => set_database "⚠️  Available but not initialized" response
  end.

Definition test_database (db : option Database)
    (getenv : string -> option string) : Outcome Diagnostics :=
  let response := probe_database db initial_response in
  let response :=
    set_database_url
      (if Py.truthy_opt (getenv "DATABASE_URL") then "✅ Set"
       else "❌ Not Set") response in
  let response :=
    set_database_name
      (if Py.truthy_opt (getenv "DATABASE_NAME") then "✅ Set"
       else "❌ Not Set") response in
  Return response.

(* ================================================================== *)
(** * Vocabulary of the properties *)

(** The certificate text as the interface description words it:
    the lines [SERTIFIKAT EPIC], [NPM: {npm}], [Attempt: {attempt}],
    [Skor: {score}] and [Tanggal: {DD-MM-YYYY}], each ended by a line feed,
    each field given as it is printed. *)
Definition certificate_text (npm attempt score date : string) : string :=
  ("SERTIFIKAT EPIC" ++ Py.LF ++ "NPM: " ++ npm ++ Py.LF
   ++ "Attempt: " ++ attempt ++ Py.LF ++ "Skor: " ++ score ++ Py.LF
   ++ "Tanggal: " ++ date ++ Py.LF)%string.

(** The document MIME type that prefixes a certificate link. *)
Definition certificate_link_prefix : string := "data:application/pdf;base64,".

(** A payment without its verification time. *)
Definition forget_verified_at (p : PaymentDoc.t) : PaymentDoc.t :=
  PaymentDoc.mk (PaymentDoc._id p) (PaymentDoc.npm p) (PaymentDoc.name p)
    (PaymentDoc.email p) (PaymentDoc.file_name p) (PaymentDoc.file_mime p)
    (PaymentDoc.file_data_b64 p) (PaymentDoc.status p)
    (PaymentDoc.verified_by p) None (PaymentDoc.created_at p).

(** The store as the endpoints show it: no endpoint returns the verification
    time of a payment, every other field reaches a response or a filter. *)
Definition observable {runtime : Runtime} (s : Store) : Store :=
  put_docs payment_coll (map forget_verified_at (payment s)) s.

(** The number of student records of a registration number. *)
Definition student_count {runtime : Runtime} (npm : string) (s : Store)
  : nat :=
  List.length
    (filter (fun d => String.eqb (StudentDoc.npm d) npm) (student s)).

(** The key a history entry is ordered by: its attempt, 0 when absent. *)
Definition entry_key {float : Type} (e : HistoryOut.t float) : Z :=
  match HistoryOut.attempt e with
  | Some a => a
  | None => 0
  end.


(** The test of line 145 for a test [t], given the certificates. *)
Definition has_certificate {runtime : Runtime} (npm : string)
    (certs : list CertificateDoc.t) (t : TestDoc.t float) : bool :=
  String.eqb (TestDoc.status t) "pass"
  && existsb (certificate_matches npm (TestDoc.attempt t)) certs.

(** What the loop body returns for a test [t]: its fields, and the
    regenerated link exactly when the test passed and a certificate of its
    npm and attempt is on record. *)
Definition entry_of {runtime : Runtime} (npm : string)
    (certs : list CertificateDoc.t) (t : TestDoc.t float)
    (e : HistoryOut.t float) : Prop :=
  HistoryOut.id e = Bson.str (TestDoc._id t)
  /\ HistoryOut.attempt e = TestDoc.attempt t
  /\ HistoryOut.score e = TestDoc.score t
  /\ HistoryOut.status e = TestDoc.status t
  /\ HistoryOut.taken_at e = TestDoc.taken_at t
  /\ exists now,
       HistoryOut.certificate_url e =
         if has_certificate npm certs t
         then Some (student_history_cert_url npm t now)
         else None.

(** A registration request. *)
Record Registration := {
  reg_npm : string;
  reg_name : string;
  reg_email : string;
  reg_payment_proof : option UploadFile
}.

(** The world after a sequence of registration requests. *)
Fixpoint register_all {runtime : Runtime} (rs : list Registration)
    (w : World) : World :=
  match rs with
  | [] => w
  | r :: rs' =>
      register_all rs'
        (snd (create_registration (reg_npm r) (reg_name r) (reg_email r)
                (reg_payment_proof r) w))
  end.

(** The MIME type the registration checks: the declared one, the generic
    type when none is declared. *)
Definition checked_mime (f : UploadFile) : string :=
  match content_type f with
  | Some m => if Py.truthy m then m else "application/octet-stream"
  | None => "application/octet-stream"
  end.

(** Whether the registration accepts the upload: no file, or a file of an
    allowed type. *)
Definition accepted (payment_proof : option UploadFile) : bool :=
  match payment_proof with
  | None => true
  | Some f => Py.str_in (checked_mime f) allowed_mime
  end.

(** The identifier a new payment gets: the next one, or the one after it
    when the student record is created first. *)
Definition new_payment_id {runtime : Runtime} (npm : string) (s : Store)
  : oid :=
  if existsb (fun d => String.eqb (StudentDoc.npm d) npm) (student s)
  then next_id s
  else N.succ (next_id s).

(** What a verification keeps of a payment: every field but the status and
    the verification time. *)
Definition payment_identity (p : PaymentDoc.t) : PaymentDoc.t :=
  PaymentDoc.mk (PaymentDoc._id p) (PaymentDoc.npm p) (PaymentDoc.name p)
    (PaymentDoc.email p) (PaymentDoc.file_name p) (PaymentDoc.file_mime p)
    (PaymentDoc.file_data_b64 p) "" (PaymentDoc.verified_by p) None
    (PaymentDoc.created_at p).

(** The payments of a pending listing. *)
Definition is_pending (p : PaymentDoc.t) : bool :=
  String.eqb (PaymentDoc.status p) "pending".

(** What the loop body returns for a test [t] in a world of clock [clk]:
    the fields of the test, and the link regenerated at some reading of the
    clock exactly when the test passed and has a certificate on record. *)
Definition entry_at {runtime : Runtime} (npm : string)
    (certs : list CertificateDoc.t) (clk : nat -> instant)
    (t : TestDoc.t float) (e : HistoryOut.t float) : Prop :=
  HistoryOut.id e = Bson.str (TestDoc._id t)
  /\ HistoryOut.attempt e = TestDoc.attempt t
  /\ HistoryOut.score e = TestDoc.score t
  /\ HistoryOut.status e = TestDoc.status t
  /\ HistoryOut.taken_at e = TestDoc.taken_at t
  /\ exists k,
       HistoryOut.certificate_url e =
         if has_certificate npm certs t
         then Some (student_history_cert_url npm t (local (clk k)))
         else None.

(** The same, with the reading of the clock located: the link of a test with
    a certificate is made from one of the readings [lo], ..., [hi - 1]. *)
Definition entry_within {runtime : Runtime} (npm : string)
    (certs : list CertificateDoc.t) (clk : nat -> instant) (lo hi : nat)
    (t : TestDoc.t float) (e : HistoryOut.t float) : Prop :=
  HistoryOut.id e = Bson.str (TestDoc._id t)
  /\ HistoryOut.attempt e = TestDoc.attempt t
  /\ HistoryOut.score e = TestDoc.score t
  /\ HistoryOut.status e = TestDoc.status t
  /\ HistoryOut.taken_at e = TestDoc.taken_at t
  /\ if has_certificate npm certs t
     then exists k,
            (lo <= k < hi)%nat
            /\ HistoryOut.certificate_url e =
                 Some (student_history_cert_url npm t (local (clk k)))
     else HistoryOut.certificate_url e = None.

(** The tests of a student, as the history request reads them. *)
Definition tests_of {runtime : Runtime} (npm : string) (s : Store)
  : list (TestDoc.t float) :=
  filter (fun t => String.eqb (TestDoc.npm t) npm) (test s).

(* ================================================================== *)
(** * Sample data for the examples *)

Module Sample.

(** A runtime for the examples: scores are whole numbers, printed as Python
    prints a whole [float]; an address is accepted, unchanged, when it has
    an [@]. *)
Definition has_at (s : string) : bool :=
  existsb (Ascii.eqb "@"%char) (list_ascii_of_string s).

Definition runtime : Runtime :=
  {| float := Z;
     str_float := fun x => (Py.str_int x ++ ".0")%string;
     EmailStr := fun s => if has_at s then Some s else None |}.

Definition noon : datetime :=
  {| year := 2024; month := 3; day := 7;
     hour := 12; minute := 0; second := 0; microsecond := 0 |}.

Definition fixed_clock : nat -> instant :=
  fun _ => {| local := noon; utc := noon |}.

Definition empty_store : @Store runtime :=
  {| student := []; payment := []; test := []; certificate := [];
     next_id := 0%N |}.

Definition empty_world : @World runtime :=
  {| db := empty_store; clock := fixed_clock; ticks := 0 |}.

(** A store with the student 2106000 and one pending payment of theirs. *)
Definition budi : StudentDoc.t :=
  StudentDoc.mk 0%N "2106000" "Budi" "budi@x.com" noon None.

Definition budi_payment : PaymentDoc.t :=
  PaymentDoc.mk 1%N "2106000" "Budi" "budi@x.com" None None None "pending"
    None None noon.

Definition budi_world : @World runtime :=
  {| db := {| student := [budi]; payment := [budi_payment]; test := [];
              certificate := []; next_id := 2%N |};
     clock := fixed_clock; ticks := 0 |}.

(** The identifier of [budi_payment] as the path parameter carries it, and
    an identifier of no payment. *)
Definition budi_payment_id : string := "000000000000000000000001".

Definition unknown_payment_id : string := "0000000000000000000000ff".

(** A zero-byte image and a text file. *)
Definition empty_png : UploadFile :=
  {| filename := Some "proof.png"; content_type := Some "image/png";
     content := [] |}.

Definition notes_txt : UploadFile :=
  {| filename := Some "notes.txt"; content_type := Some "text/plain";
     content := list_byte_of_string "paid" |}.

(** The store after a first registration that carries the zero-byte
    image. *)
Definition empty_png_world : @World runtime :=
  snd (create_registration "2106000" "Budi" "budi@x.com" (Some empty_png)
         empty_world).

Definition empty_png_payment : PaymentDoc.t :=
  PaymentDoc.mk 1%N "2106000" "Budi" "budi@x.com" (Some "proof.png")
    (Some "image/png") (Some "") "pending" None None noon.

(** Two results of the student, and the store after the passed one. *)
Definition first_pass : ResultBody.t (@float runtime) :=
  ResultBody.mk "2106000" 1 85 "pass".

Definition attempt_zero : ResultBody.t (@float runtime) :=
  ResultBody.mk "2106000" 0 85 "pass".

Definition passed_world : @World runtime :=
  snd (submit_result first_pass empty_world).

Definition passed_test : TestDoc.t (@float runtime) :=
  TestDoc.mk 0%N "2106000" (Some 1) (Some 85) "pass" (Some noon) noon.

(** A small image, a verification body, a store handle that is down, and
    two registrations of the same student. *)
Definition receipt_png : UploadFile :=
  {| filename := Some "receipt.png"; content_type := Some "image/png";
     content := list_byte_of_string "PNG" |}.

Definition approve : VerifyBody.t := VerifyBody.mk "approved".

Definition store_down : Database :=
  {| name := None; list_collection_names := inl "connection refused" |}.

Definition budi_twice : list Registration :=
  [ {| reg_npm := "2106000"; reg_name := "Budi";
       reg_email := "budi@x.com"; reg_payment_proof := None |};
    {| reg_npm := "2106000"; reg_name := "Budi S.";
       reg_email := "budi@y.org"; reg_payment_proof := Some receipt_png |} ].

(** A result with a status that is none of the two. *)
Definition undecided : ResultBody.t (@float runtime) :=
  ResultBody.mk "2106000" 1 85 "maybe".

End Sample.

(* ================================================================== *)
(** * Properties of the base64 encoding *)

Module Base64Facts.
Import Base64.
Local Open Scope N_scope.

(** Every 6-bit value below 64 is one of the first 64 naturals. *)
Lemma below_64_enum (i : N) : i < 64 -> In i (map N.of_nat (seq 0 64)).
Proof.
  intros H. rewrite <- (N2Nat.id i). apply in_map. apply in_seq. lia.
Qed.

Lemma value_of_char_of (i : N) : i < 64 -> value_of (char_of i) = Some i.
Proof.
  intros H.
  assert (E : forallb (fun j => match value_of (char_of j) with
                                | Some k => k =? j
                                | None => false
                                end) (map N.of_nat (seq 0 64)) = true)
    by (vm_compute; reflexivity).
  rewrite forallb_forall in E. specialize (E i (below_64_enum i H)).
  destruct (value_of (char_of i)) as [k|]; [|discriminate].
  apply N.eqb_eq in E. now subst.
Qed.

Lemma char_of_not_pad (i : N) : i < 64 -> is_pad (char_of i) = false.
Proof.
  intros H.
  assert (E : forallb (fun j => negb (is_pad (char_of j)))
                (map N.of_nat (seq 0 64)) = true)
    by (vm_compute; reflexivity).
  rewrite forallb_forall in E. specialize (E i (below_64_enum i H)).
  now apply negb_true_iff in E.
Qed.

Lemma is_pad_pad : is_pad pad = true.
Proof. reflexivity. Qed.

(** Induction on a list three elements at a time. *)
Lemma list_ind3 {A : Type} (P : list A -> Prop) :
  P [] ->
  (forall a, P [a]) ->
  (forall a b, P [a; b]) ->
  (forall a b c rest, P rest -> P (a :: b :: c :: rest)) ->
  forall l, P l.
Proof.
  intros H0 H1 H2 H3.
  assert (K : forall l, P l /\ (forall a, P (a :: l)) /\
                        (forall a b, P (a :: b :: l))).
  { induction l as [|x l (IH0 & IH1 & IH2)].
    - repeat split; auto.
    - repeat split; auto. }
  intros l. apply K.
Qed.

Ltac byte_arith :=
  zify; Z.to_euclidean_division_equations; lia.

Lemma decode_encode_values (bs : list N) :
  Forall (fun b => b < 256) bs ->
  decode_values (encode_values bs) = Some bs.
Proof.
  induction bs as [|a|a b|a b c rest IH] using list_ind3; intros F.
  - reflexivity.
  - inversion_clear F as [|? ? Ha _].
    cbn [encode_values decode_values]; unfold decode_group.
    rewrite !value_of_char_of, !is_pad_pad by byte_arith.
    do 2 f_equal. byte_arith.
  - inversion_clear F as [|? ? Ha F']. inversion_clear F' as [|? ? Hb _].
    cbn [encode_values decode_values]; unfold decode_group.
    rewrite !value_of_char_of, is_pad_pad, char_of_not_pad by byte_arith.
    do 2 f_equal; [|f_equal]; byte_arith.
  - inversion_clear F as [|? ? Ha F']. inversion_clear F' as [|? ? Hb F].
    inversion_clear F as [|? ? Hc F'].
    cbn [encode_values decode_values]; unfold decode_group.
    rewrite !value_of_char_of, !char_of_not_pad by byte_arith.
    rewrite (IH F'). cbn [app].
    do 2 f_equal; [|f_equal; [|f_equal]]; byte_arith.
Qed.

Lemma bytes_of_values_to_N (raw : list byte) :
  bytes_of_values (map Byte.to_N raw) = Some raw.
Proof.
  induction raw as [|b raw IH]; [reflexivity|].
  cbn [map bytes_of_values]. now rewrite Byte.of_to_N, IH.
Qed.

Lemma to_N_below_256 (raw : list byte) :
  Forall (fun b => b < 256) (map Byte.to_N raw).
Proof.
  induction raw as [|b raw IH]; constructor; auto.
  pose proof (Byte.to_N_bounded b). lia.
Qed.

(** Decoding gives back the bytes that were encoded. *)
Lemma b64decode_b64encode (raw : list byte) :
  b64decode (b64encode raw) = Some raw.
Proof.
  unfold b64decode, b64encode.
  rewrite decode_encode_values by apply to_N_below_256.
  apply bytes_of_values_to_N.
Qed.

End Base64Facts.

(* ================================================================== *)
(** * Properties of the handlers *)

Section StoreFacts.

Context {runtime : Runtime}.

(** Writing back what a collection holds changes nothing. *)
Lemma put_docs_same_payment (s : Store) :
  put_docs payment_coll (payment s) s = s.
Proof. now destruct s. Qed.

Lemma with_db_same (w : World) : with_db (db w) w = w.
Proof. now destruct w. Qed.

(** A [$set] that matches nothing leaves the collection as it is. *)
Lemma update_first_no_match {D : Type} (matches : D -> bool) (set : D -> D)
    (l : list D) :
  existsb matches l = false -> update_first matches set l = l.
Proof.
  induction l as [|d l IH]; cbn; [reflexivity|].
  intros H. apply orb_false_iff in H as [Hd Hl].
  rewrite Hd. now rewrite IH.
Qed.

End StoreFacts.

Section ResultFacts.

Context {runtime : Runtime}.

Lemma submit_result_pdf_content_text (body : ResultBody.t float)
    (now : datetime) :
  submit_result_pdf_content body now =
  list_byte_of_string
    (certificate_text (ResultBody.npm body)
       (Py.str_int (ResultBody.attempt body))
       (str_float (ResultBody.score body)) (strftime_dmY now)).
Proof. reflexivity. Qed.

(** C10.  A result with status [pass] or [fail] and an attempt below 1 does
    not get past the construction of the [Test] record: the request ends in
    the validation error of the field [attempt] (a 500 response), and
    neither a Test nor a Certificate record is created. *)
Theorem submit_result_attempt_below_one (w : World)
    (body : ResultBody.t float) :
  Py.str_in (ResultBody.status body) ["pass"; "fail"] = true ->
  ResultBody.attempt body < 1 ->
  exists w',
    submit_result body w = (Raise (ValidationError "Test" "attempt"), w')
    /\ status_code_of (fst (submit_result body w)) = 500
    /\ test (db w') = test (db w)
    /\ certificate (db w') = certificate (db w).
Proof.
  intros Hstatus Hattempt.
  apply Z.ltb_lt in Hattempt.
  unfold submit_result, bind, now_utc, lift, Test.new.
  rewrite Hstatus, Hattempt. cbn.
  eexists. repeat split.
Qed.

(** C1, as amended.  For an attempt of at least 1: with status [pass] the
    request succeeds, exactly one Certificate record is appended, for the
    submitted npm and attempt, and the link returned is the document MIME
    prefix followed by a payload that decodes to the certificate text with
    the submitted npm, attempt and score and the local date of the clock
    reading made for it; with status [fail] the request succeeds, no
    Certificate record is created and the link is null. *)
Theorem submit_result_certificate (w : World) (body : ResultBody.t float) :
  1 <= ResultBody.attempt body ->
  (ResultBody.status body = "pass" ->
   exists w' c payload,
     submit_result body w =
       (Return (ResultOut.mk true
                  (Some (certificate_link_prefix ++ payload)%string)), w')
     /\ certificate (db w') = (certificate (db w) ++ [c])%list
     /\ CertificateDoc.npm c = ResultBody.npm body
     /\ CertificateDoc.attempt c = Some (ResultBody.attempt body)
     /\ Base64.b64decode payload =
          Some (list_byte_of_string
                  (certificate_text (ResultBody.npm body)
                     (Py.str_int (ResultBody.attempt body))
                     (str_float (ResultBody.score body))
                     (strftime_dmY (local (clock w (2 + ticks w)))))))
  /\ (ResultBody.status body = "fail" ->
      exists w',
        submit_result body w = (Return (ResultOut.mk true None), w')
        /\ certificate (db w') = certificate (db w)).
Proof.
  intros Hattempt.
  assert (Hge : (ResultBody.attempt body <? 1) = false)
    by (apply Z.ltb_ge; lia).
  split; intros Hstatus.
  - unfold submit_result, bind, now_utc, now_local, lift, Test.new,
      Certificate.new, create_document, fresh_id, bind, now_utc, ret.
    rewrite Hstatus, Hge. cbn.
    eexists. eexists.
    exists (Base64.b64encode
              (submit_result_pdf_content body
                 (local (clock w (2 + ticks w))))).
    repeat split.
    rewrite Base64Facts.b64decode_b64encode.
    now rewrite submit_result_pdf_content_text.
  - unfold submit_result, bind, now_utc, now_local, lift, Test.new,
      Certificate.new, create_document, fresh_id, bind, now_utc, ret.
    rewrite Hstatus, Hge. cbn.
    eexists. repeat split.
Qed.

End ResultFacts.

Section VerifyFacts.

Context {runtime : Runtime}.

(** ** Payment verification *)

(** C4, as amended.  For an identifier that is a well-formed object
    identifier (24 hexadecimal digits) and matches no Payment record, a
    verification with status [approved] or [rejected] ends in the
    [HTTPException] 404 and leaves the store as it was. *)
Theorem verify_payment_not_found (w : World) (payment_id : string)
    (body : VerifyBody.t) (id : oid) :
  Py.str_in (VerifyBody.status body) ["approved"; "rejected"] = true ->
  Bson.ObjectId payment_id = Some id ->
  existsb (fun p => N.eqb (PaymentDoc._id p) id) (payment (db w)) = false ->
  exists w',
    verify_payment payment_id body w =
      (Raise (HTTPException 404 "Payment tidak ditemukan"), w')
    /\ status_code_of (fst (verify_payment payment_id body w)) = 404
    /\ db w' = db w.
Proof.
  intros Hstatus Hid Hnone.
  unfold verify_payment, bind, lift, now_utc, update_one, raise.
  rewrite Hstatus, Hid. cbn. rewrite Hnone. cbn.
  eexists. repeat split.
  rewrite update_first_no_match by exact Hnone.
  apply put_docs_same_payment.
Qed.

(** A second [$set] finds the document the first one changed, when the
    first keeps what the filter looks at. *)
Lemma update_first_twice {D : Type} (matches : D -> bool) (f g : D -> D)
    (l : list D) :
  (forall d, matches (g d) = matches d) ->
  update_first matches f (update_first matches g l) =
  update_first matches (fun d => f (g d)) l.
Proof.
  intros Hkeep. induction l as [|d l IH]; cbn; [reflexivity|].
  destruct (matches d) eqn:Hd; cbn.
  - now rewrite Hkeep, Hd.
  - now rewrite Hd, IH.
Qed.

Lemma existsb_update_first {D : Type} (matches : D -> bool) (g : D -> D)
    (l : list D) :
  (forall d, matches (g d) = matches d) ->
  existsb matches (update_first matches g l) = existsb matches l.
Proof.
  intros Hkeep. induction l as [|d l IH]; cbn; [reflexivity|].
  destruct (matches d) eqn:Hd; cbn.
  - now rewrite Hkeep, Hd.
  - now rewrite Hd, IH.
Qed.

(** Two [$set]s that agree under [h] give collections that agree under
    [h]. *)
Lemma map_update_first {D E : Type} (h : D -> E) (matches : D -> bool)
    (f g : D -> D) (l : list D) :
  (forall d, h (f d) = h (g d)) ->
  map h (update_first matches f l) = map h (update_first matches g l).
Proof.
  intros Hfg. induction l as [|d l IH]; cbn; [reflexivity|].
  destruct (matches d); cbn; [now rewrite Hfg | now rewrite IH].
Qed.

(** The pending listing reads the store through [observable]. *)
Lemma pending_entry_forget (p : PaymentDoc.t) :
  pending_entry (forget_verified_at p) = pending_entry p.
Proof. reflexivity. Qed.

Lemma list_pending_observable (w1 w2 : World) :
  observable (db w1) = observable (db w2) ->
  fst (list_pending w1) = fst (list_pending w2).
Proof.
  intros H. apply (f_equal payment) in H. cbn in H.
  unfold list_pending, bind, get_documents, ret. cbn. f_equal.
  assert (K : forall l,
    map pending_entry
      (filter (fun p => String.eqb (PaymentDoc.status p) "pending") l) =
    map pending_entry
      (filter (fun p => String.eqb (PaymentDoc.status p) "pending")
         (map forget_verified_at l))).
  { induction l as [|p l IH]; cbn; [reflexivity|].
    destruct (String.eqb (PaymentDoc.status p) "pending"); cbn;
      now rewrite IH. }
  now rewrite (K (payment (db w1))), (K (payment (db w2))), H.
Qed.

(** C3.  For an existing payment and a status of [approved] or [rejected],
    the verification succeeds each time it is invoked, and the store after
    two invocations in succession shows what the store after one shows: the
    stores agree on every collection and every field but the verification
    time, which no endpoint returns, and the pending listing is the same. *)
Theorem verify_payment_idempotent (w : World) (payment_id : string)
    (body : VerifyBody.t) (id : oid) :
  Py.str_in (VerifyBody.status body) ["approved"; "rejected"] = true ->
  Bson.ObjectId payment_id = Some id ->
  existsb (fun p => N.eqb (PaymentDoc._id p) id) (payment (db w)) = true ->
  exists w1 w2,
    verify_payment payment_id body w = (Return (VerifyOut.mk true), w1)
    /\ verify_payment payment_id body w1 = (Return (VerifyOut.mk true), w2)
    /\ observable (db w2) = observable (db w1)
    /\ fst (list_pending w2) = fst (list_pending w1).
Proof.
  intros Hstatus Hid Hsome.
  assert (Hkeep : forall s t d,
    N.eqb (PaymentDoc._id (set_payment_status s t d)) id =
    N.eqb (PaymentDoc._id d) id) by reflexivity.
  assert (E1 : exists w1,
    verify_payment payment_id body w = (Return (VerifyOut.mk true), w1)
    /\ payment (db w1) =
         update_first (fun p => N.eqb (PaymentDoc._id p) id)
           (set_payment_status (VerifyBody.status body)
              (utc (clock w (ticks w)))) (payment (db w))
    /\ student (db w1) = student (db w) /\ test (db w1) = test (db w)
    /\ certificate (db w1) = certificate (db w)
    /\ next_id (db w1) = next_id (db w)
    /\ clock w1 = clock w /\ ticks w1 = S (ticks w)).
  { unfold verify_payment, bind, lift, now_utc, update_one, ret.
    rewrite Hstatus, Hid. cbn. rewrite Hsome. cbn.
    eexists. repeat split. }
  destruct E1 as (w1 & R1 & P1 & S1 & T1 & C1 & N1 & K1 & I1).
  assert (Hsome1 :
    existsb (fun p => N.eqb (PaymentDoc._id p) id) (payment (db w1)) = true).
  { rewrite P1, existsb_update_first; [exact Hsome | apply Hkeep]. }
  exists w1.
  unfold verify_payment at 2.
  unfold bind, lift, now_utc, update_one, ret.
  rewrite Hstatus, Hid. cbn. rewrite Hsome1. cbn.
  eexists. split; [exact R1|]. split; [reflexivity|].
  assert (O : observable
      (put_docs payment_coll
         (update_first (fun p => N.eqb (PaymentDoc._id p) id)
            (set_payment_status (VerifyBody.status body)
               (utc (clock w1 (ticks w1)))) (payment (db w1))) (db w1)) =
    observable (db w1)).
  { unfold observable. cbn. f_equal.
    rewrite P1, update_first_twice by apply Hkeep.
    now apply map_update_first. }
  split; [exact O|].
  apply list_pending_observable. exact O.
Qed.

End VerifyFacts.

Section RegistrationFacts.

Context {runtime : Runtime}.

(** ** Registration *)

Lemma find_existsb {D : Type} (m : D -> bool) (l : list D) :
  existsb m l = true -> exists d, find m l = Some d.
Proof.
  induction l as [|d l IH]; cbn; [discriminate|].
  destruct (m d); [eauto | exact IH].
Qed.

Lemma find_none_existsb {D : Type} (m : D -> bool) (l : list D) :
  find m l = None -> existsb m l = false.
Proof.
  induction l as [|d l IH]; cbn; [reflexivity|].
  destruct (m d); [discriminate | exact IH].
Qed.

Lemma filter_update_first_length {D : Type} (p m : D -> bool) (f : D -> D)
    (l : list D) :
  (forall d, p (f d) = p d) ->
  List.length (filter p (update_first m f l)) = List.length (filter p l).
Proof.
  intros Hkeep. induction l as [|d l IH]; cbn; [reflexivity|].
  destruct (m d); cbn.
  - rewrite Hkeep. now destruct (p d).
  - destruct (p d); cbn; now rewrite IH.
Qed.

Lemma update_first_length {D : Type} (m : D -> bool) (f : D -> D)
    (l : list D) :
  List.length (update_first m f l) = List.length l.
Proof.
  induction l as [|d l IH]; cbn; [reflexivity|].
  destruct (m d); cbn; [reflexivity | now rewrite IH].
Qed.

Lemma find_update_first {D : Type} (m : D -> bool) (f : D -> D)
    (l : list D) (d : D) :
  (forall x, m (f x) = m x) ->
  find m l = Some d -> find m (update_first m f l) = Some (f d).
Proof.
  intros Hkeep. induction l as [|x l IH]; cbn; [discriminate|].
  destruct (m x) eqn:Hx; cbn.
  - intros [= ->]. now rewrite Hkeep, Hx.
  - rewrite Hx. exact IH.
Qed.

(** The upsert of a student that exists: the first record of the number
    is overwritten, nothing else changes. *)
Lemma upsert_student_existing (w : World) (npm name email : string)
    (s : StudentDoc.t) :
  find (fun d => String.eqb (StudentDoc.npm d) npm) (student (db w)) = Some s ->
  exists w1,
    upsert_student npm name email w = (Return tt, w1)
    /\ student (db w1) =
         update_first (fun d => String.eqb (StudentDoc.npm d) npm)
           (set_student name email (utc (clock w (ticks w))))
           (student (db w))
    /\ payment (db w1) = payment (db w).
Proof.
  intros Hfind.
  unfold upsert_student, bind, find_one, now_utc, update_one, ret.
  cbn. rewrite Hfind. cbn. eexists. repeat split.
Qed.

(** The upsert never touches the payments. *)
Lemma upsert_student_payment (w : World) (npm name email : string) :
  payment (db (snd (upsert_student npm name email w))) = payment (db w).
Proof.
  unfold upsert_student, bind, find_one, now_utc, update_one, ret, lift,
    create_document, fresh_id, bind, now_utc, Student.new.
  cbn.
  destruct (find _ (student (db w))); cbn; [reflexivity|].
  destruct (EmailStr email); reflexivity.
Qed.

(** The upsert succeeds when the address is valid or the student exists. *)
Lemma upsert_student_ok (w : World) (npm name email : string) :
  EmailStr email <> None
  \/ existsb (fun d => String.eqb (StudentDoc.npm d) npm) (student (db w))
     = true ->
  fst (upsert_student npm name email w) = Return tt.
Proof.
  intros H.
  unfold upsert_student, bind, find_one, now_utc, update_one, ret, lift,
    create_document, fresh_id, bind, now_utc, Student.new.
  cbn.
  destruct (find _ (student (db w))) eqn:Hfind; cbn; [reflexivity|].
  destruct (EmailStr email) eqn:He; cbn; [reflexivity|].
  destruct H as [H | H]; [congruence|].
  apply find_none_existsb in Hfind. congruence.
Qed.

(** What follows the upsert leaves the students as they are. *)
Lemma after_upsert_student (npm name email : string)
    (payment_proof : option UploadFile) (w1 : World) :
  student
    (db (snd
      (bind (read_payment_proof payment_proof)
         (fun file =>
            let '(file_name, file_mime, file_b64) := file in
            bind (lift (Payment.new EmailStr npm name email
                          file_name file_mime file_b64 "pending"))
              (fun pay =>
                 bind (create_document payment_coll dump_payment pay)
                   (fun pid =>
                      ret (RegistrationOut.mk "Registrasi tersimpan" pid))))
         w1))) = student (db w1).
Proof.
  unfold bind, read_payment_proof, lift, create_document, fresh_id, bind,
    now_utc, ret, raise, Payment.new.
  destruct payment_proof as [f|]; cbn.
  - destruct (negb _); cbn; [reflexivity|].
    destruct (EmailStr email); reflexivity.
  - destruct (EmailStr email); reflexivity.
Qed.

(** The type check refuses a file whose declared type is not allowed. *)
Lemma read_payment_proof_refused (f : UploadFile) (w : World) :
  (forall m, content_type f = Some m -> Py.str_in m allowed_mime = false) ->
  read_payment_proof (Some f) w =
    (Raise (HTTPException 400
              "Format file tidak didukung. Gunakan JPG/PNG/PDF"), w).
Proof.
  intros H. unfold read_payment_proof, raise.
  destruct (content_type f) as [m|]; [|reflexivity].
  specialize (H m eq_refl).
  destruct (Py.truthy m); [now rewrite H | reflexivity].
Qed.

(** The first match of a [$set]: the list around it stays, the match is
    replaced by its update. *)
Lemma update_first_split {D : Type} (m : D -> bool) (f : D -> D)
    (l : list D) (d : D) :
  find m l = Some d ->
  exists before after,
    l = (before ++ d :: after)%list
    /\ m d = true
    /\ update_first m f l = (before ++ f d :: after)%list.
Proof.
  induction l as [|x l IH]; cbn; [discriminate|].
  destruct (m x) eqn:Hx.
  - intros [= ->]. exists [], l. repeat split. exact Hx.
  - intros Hfind. destruct (IH Hfind) as (before & after & -> & Hd & Hup).
    exists (x :: before), after. cbn. rewrite Hup. repeat split. exact Hd.
Qed.

(** C7.  A registration with non-empty npm, name and e-mail address, with
    any file or none, against a store that holds exactly one Student record
    of that npm, overwrites that record in place: the Student records
    afterwards are those before, in the same order, with the one record of
    the npm replaced by a record of the same identifier, npm and creation
    time that holds the submitted name, the submitted address and the time
    of the request as update time.  The store still holds exactly one
    Student record of the npm, and no Student record more than before. *)
Theorem create_registration_updates_student (w : World)
    (npm name email : string) (payment_proof : option UploadFile) :
  Py.truthy npm = true -> Py.truthy name = true -> Py.truthy email = true ->
  student_count npm (db w) = 1%nat ->
  exists before s after,
    student (db w) = (before ++ s :: after)%list
    /\ StudentDoc.npm s = npm
    /\ find (fun d => String.eqb (StudentDoc.npm d) npm) (student (db w))
       = Some s
    /\ let w' := snd (create_registration npm name email payment_proof w) in
       student (db w')
       = (before
          ++ StudentDoc.mk (StudentDoc._id s) npm name email
               (StudentDoc.created_at s) (Some (utc (clock w (ticks w))))
          :: after)%list
       /\ student_count npm (db w') = 1%nat
       /\ List.length (student (db w')) = List.length (student (db w)).
Proof.
  intros Hnpm Hname Hemail Hcount.
  assert (Hex : existsb (fun d => String.eqb (StudentDoc.npm d) npm)
                  (student (db w)) = true).
  { unfold student_count in Hcount.
    induction (student (db w)) as [|d l IH]; cbn in *; [discriminate|].
    destruct (String.eqb (StudentDoc.npm d) npm); cbn in *; auto. }
  destruct (find_existsb _ _ Hex) as [s Hs].
  destruct (upsert_student_existing w npm name email s Hs)
    as (w1 & Hup & Hstud & _).
  assert (Hkeep : forall d,
    String.eqb (StudentDoc.npm (set_student name email
                                  (utc (clock w (ticks w))) d)) npm =
    String.eqb (StudentDoc.npm d) npm) by reflexivity.
  assert (Hafter :
    student (db (snd (create_registration npm name email payment_proof w)))
    = update_first (fun d => String.eqb (StudentDoc.npm d) npm)
        (set_student name email (utc (clock w (ticks w)))) (student (db w))).
  { unfold create_registration. rewrite Hnpm, Hname, Hemail. cbn [negb orb].
    unfold bind at 1. rewrite Hup.
    now rewrite after_upsert_student. }
  destruct (update_first_split _
              (set_student name email (utc (clock w (ticks w)))) _ _ Hs)
    as (before & after & Hsplit & Hmatch & Hupd).
  apply String.eqb_eq in Hmatch.
  exists before, s, after.
  split; [exact Hsplit|]. split; [exact Hmatch|]. split; [exact Hs|].
  cbv zeta. unfold student_count. rewrite Hafter.
  split; [|split].
  - rewrite Hupd. unfold set_student. now rewrite Hmatch.
  - now rewrite filter_update_first_length.
  - apply update_first_length.
Qed.

(** C5, as amended.  A registration with non-empty npm, name and e-mail
    address and a file whose declared type is none of the three allowed ones
    creates no Payment record; it ends in the [HTTPException] 400 when the
    student upsert before the type check succeeds, that is when the address
    passes [EmailStr] or a Student record of the npm exists already. *)
Theorem create_registration_unsupported_type (w : World)
    (npm name email : string) (f : UploadFile) :
  Py.truthy npm = true -> Py.truthy name = true -> Py.truthy email = true ->
  (forall m, content_type f = Some m -> Py.str_in m allowed_mime = false) ->
  payment (db (snd (create_registration npm name email (Some f) w)))
    = payment (db w)
  /\ (EmailStr email <> None
      \/ existsb (fun d => String.eqb (StudentDoc.npm d) npm)
           (student (db w)) = true ->
      fst (create_registration npm name email (Some f) w) =
        Raise (HTTPException 400
                 "Format file tidak didukung. Gunakan JPG/PNG/PDF")
      /\ status_code_of (fst (create_registration npm name email (Some f) w))
         = 400).
Proof.
  intros Hnpm Hname Hemail Htype.
  destruct (create_registration npm name email (Some f) w) as [out w']
    eqn:Hrun.
  unfold create_registration in Hrun.
  rewrite Hnpm, Hname, Hemail in Hrun. cbn [negb orb] in Hrun.
  unfold bind at 1 in Hrun.
  pose proof (upsert_student_payment w npm name email) as Hpay.
  pose proof (upsert_student_ok w npm name email) as Hok.
  destruct (upsert_student npm name email w) as [[u|e] w1]; cbn in Hpay, Hok.
  - unfold bind at 1 in Hrun.
    rewrite (read_payment_proof_refused f w1 Htype) in Hrun.
    injection Hrun as <- <-. cbn.
    split; [exact Hpay|]. intros _. split; reflexivity.
  - injection Hrun as <- <-. cbn.
    split; [exact Hpay|]. intros H. specialize (Hok H). discriminate.
Qed.

(** The payment a registration with a zero-byte file of an allowed type
    stores: pending, the type kept, the encoded content the empty string. *)
Lemma create_registration_zero_byte_file (w : World)
    (npm name email e mime : string) (f : UploadFile) :
  Py.truthy npm = true -> Py.truthy name = true -> Py.truthy email = true ->
  EmailStr email = Some e ->
  content_type f = Some mime -> Py.str_in mime allowed_mime = true ->
  content f = [] ->
  exists out w' p,
    create_registration npm name email (Some f) w = (Return out, w')
    /\ payment (db w') = (payment (db w) ++ [p])%list
    /\ PaymentDoc.status p = "pending"
    /\ PaymentDoc.file_mime p = Some mime
    /\ PaymentDoc.file_data_b64 p = Some "".
Proof.
  intros Hnpm Hname Hemail He Hct Hallowed Hcontent.
  assert (Htruthy : Py.truthy mime = true) by (now destruct mime).
  unfold create_registration. rewrite Hnpm, Hname, Hemail. cbn [negb orb].
  unfold bind at 1.
  pose proof (upsert_student_payment w npm name email) as Hpay.
  pose proof (upsert_student_ok w npm name email) as Hok.
  destruct (upsert_student npm name email w) as [[u|x] w1]; cbn in Hpay, Hok.
  - unfold bind, read_payment_proof, lift, create_document, fresh_id, bind,
      now_utc, ret, Payment.new.
    rewrite Hct, Htruthy, Hallowed, He, Hcontent. cbn.
    eexists. eexists. eexists. split; [reflexivity|]. cbn.
    rewrite Hpay. repeat split.
  - assert (K : EmailStr email <> None) by congruence.
    specialize (Hok (or_introl K)). discriminate.
Qed.

(** C9.  A pending Payment record whose stored base64 content is the empty
    string is listed by [GET /admin/pending] with a null [file_url], though
    both the content field and the MIME-type field are present: the test is
    on truthiness, and the empty string is falsy. *)
Theorem list_pending_empty_content (w : World) (p : PaymentDoc.t)
    (mime : string) :
  In p (payment (db w)) ->
  PaymentDoc.status p = "pending" ->
  PaymentDoc.file_data_b64 p = Some "" ->
  PaymentDoc.file_mime p = Some mime ->
  pending_entry p =
    PendingOut.mk (Bson.str (PaymentDoc._id p)) (PaymentDoc.npm p)
      (PaymentDoc.name p) (PaymentDoc.email p) None
  /\ exists out,
       list_pending w = (Return out, w) /\ In (pending_entry p) out.
Proof.
  intros Hin Hstatus Hdata Hmime. split.
  - unfold pending_entry. now rewrite Hdata.
  - unfold list_pending, bind, get_documents, ret. cbn.
    eexists. split; [reflexivity|].
    apply in_map, filter_In. split; [exact Hin|].
    rewrite Hstatus. reflexivity.
Qed.

End RegistrationFacts.

Module SortFacts.

Section ByKey.

Context {A : Type} (key : A -> Z).

Lemma insert_by_perm (x : A) (l : list A) :
  Permutation (Py.insert_by key x l) (x :: l).
Proof.
  induction l as [|y l IH]; cbn; [reflexivity|].
  destruct (key x <=? key y); [reflexivity|].
  rewrite IH. apply perm_swap.
Qed.

Lemma sorted_perm (l : list A) : Permutation (Py.sorted key l) l.
Proof.
  induction l as [|x l IH]; cbn; [reflexivity|].
  rewrite insert_by_perm. now constructor.
Qed.




End ByKey.


(** Every element on the right of a [Forall2] has a partner on the left. *)
Lemma Forall2_partner {A B : Type} (R : A -> B -> Prop) (l : list A)
    (l' : list B) (b : B) :
  Forall2 R l l' -> In b l' -> exists a, In a l /\ R a b.
Proof.
  intros F. induction F as [|x y l l' Hxy F IH]; cbn; [tauto|].
  intros [<- | Hin].
  - exists x. auto.
  - destruct (IH Hin) as (a & Ha & Hab). exists a. auto.
Qed.

End SortFacts.

Section HistoryFacts.

Context {runtime : Runtime}.

(** ** Student history *)

Lemma find_is_some {D : Type} (m : D -> bool) (l : list D) :
  match find m l with Some _ => true | None => false end = existsb m l.
Proof.
  induction l as [|d l IH]; cbn; [reflexivity|].
  destruct (m d); [reflexivity | exact IH].
Qed.

Lemma history_entry_spec (npm : string) (t : TestDoc.t float) (w : World) :
  exists e w',
    history_entry npm t w = (Return e, w')
    /\ db w' = db w /\ clock w' = clock w
    /\ HistoryOut.certificate_url e =
         (if has_certificate npm (certificate (db w)) t
          then Some (student_history_cert_url npm t
                       (local (clock w (ticks w))))
          else None)
    /\ entry_of npm (certificate (db w)) t e.
Proof.
  unfold history_entry, bind, find_one, now_local, ret, entry_of,
    has_certificate.
  cbn -[Bson.str student_history_cert_url]. rewrite find_is_some.
  destruct (String.eqb (TestDoc.status t) "pass"
            && existsb _ (certificate (db w))) eqn:Hc;
    cbn -[Bson.str student_history_cert_url];
    (eexists; eexists; split; [reflexivity|]);
    cbn -[Bson.str student_history_cert_url];
    (do 3 (split; [reflexivity|]));
    (do 5 (split; [reflexivity|]);
     exists (local (clock w (ticks w))); reflexivity).
Qed.



End HistoryFacts.

Section LinkFacts.

Context {runtime : Runtime}.

(** ** The two certificate links *)

(** The run of a result submission with status [pass] and a valid
    attempt. *)
Lemma submit_result_pass_run (w : World) (body : ResultBody.t float) :
  1 <= ResultBody.attempt body ->
  ResultBody.status body = "pass" ->
  exists w',
    submit_result body w =
      (Return (ResultOut.mk true
                 (Some (submit_result_cert_url body
                          (local (clock w (2 + ticks w)))))), w').
Proof.
  intros Hattempt Hstatus.
  assert (Hge : (ResultBody.attempt body <? 1) = false)
    by (apply Z.ltb_ge; lia).
  unfold submit_result, bind, now_utc, now_local, lift, Test.new,
    Certificate.new, create_document, fresh_id, bind, now_utc, ret.
  rewrite Hstatus, Hge. cbn -[submit_result_cert_url]. eexists. reflexivity.
Qed.

(** The link of a submission depends on the clock through the printed date
    only. *)
Lemma submit_result_cert_url_date (body : ResultBody.t float)
    (d1 d2 : datetime) :
  strftime_dmY d1 = strftime_dmY d2 ->
  submit_result_cert_url body d1 = submit_result_cert_url body d2.
Proof.
  intros H. unfold submit_result_cert_url, submit_result_pdf_content.
  now rewrite H.
Qed.

(** The two link constructions agree on a stored test that has the
    submitted attempt and score. *)
Lemma student_history_cert_url_submit (npm status : string)
    (t : TestDoc.t float) (a : Z) (s : float) (now : datetime) :
  TestDoc.attempt t = Some a -> TestDoc.score t = Some s ->
  student_history_cert_url npm t now =
  submit_result_cert_url (ResultBody.mk npm a s status) now.
Proof.
  intros Ha Hs.
  unfold student_history_cert_url, student_history_pdf_content,
    submit_result_cert_url, submit_result_pdf_content.
  now rewrite Ha, Hs.
Qed.

(** C2.  For a Test record with status [pass], attempt [a] and score [s]
    of a student [npm] that has a matching Certificate record, the history
    entry carries the link that a result submission of [npm], [a], [s] with
    status [pass] returns, whenever the clock readings of the two requests
    print the same date; the two constructions are the same function of npm,
    attempt, score and date. *)
Theorem history_link_is_result_link (npm : string) (t : TestDoc.t float)
    (a : Z) (s : float) (w w2 : World) :
  TestDoc.status t = "pass" ->
  TestDoc.attempt t = Some a ->
  TestDoc.score t = Some s ->
  1 <= a ->
  existsb (certificate_matches npm (Some a)) (certificate (db w)) = true ->
  strftime_dmY (local (clock w (ticks w))) =
    strftime_dmY (local (clock w2 (2 + ticks w2))) ->
  (forall now,
     student_history_cert_url npm t now =
     submit_result_cert_url (ResultBody.mk npm a s "pass") now)
  /\ exists e w' w2' url,
       history_entry npm t w = (Return e, w')
       /\ HistoryOut.certificate_url e = Some url
       /\ submit_result (ResultBody.mk npm a s "pass") w2 =
            (Return (ResultOut.mk true (Some url)), w2').
Proof.
  intros Hstatus Hattempt Hscore Hge Hcert Hdate.
  split; [intros now; now apply student_history_cert_url_submit|].
  destruct (history_entry_spec npm t w) as (e & w' & Hrun & _ & _ & Hurl & _).
  destruct (submit_result_pass_run w2 (ResultBody.mk npm a s "pass") Hge
              eq_refl) as (w2' & Hsubmit).
  exists e, w', w2'. eexists. split; [exact Hrun|]. split; [|exact Hsubmit].
  assert (Hc : has_certificate npm (certificate (db w)) t = true).
  { unfold has_certificate. now rewrite Hstatus, Hattempt, Hcert. }
  rewrite Hurl, Hc. f_equal.
  rewrite (student_history_cert_url_submit npm "pass" t a s _ Hattempt Hscore).
  now apply submit_result_cert_url_date.
Qed.

End LinkFacts.

(* ================================================================== *)
(** * Properties of the diagnostics endpoint *)

Lemma slice_to_len (n : nat) (s : string) :
  (Py.len (Py.slice_to n s) <= n)%nat.
Proof.
  revert n. induction s as [|c s IH]; intros n; cbn; [lia|].
  destruct (Py.is_continuation c) eqn:Hc; cbn; rewrite ?Hc.
  - apply IH.
  - destruct n as [|n]; cbn; [lia|]. rewrite Hc. specialize (IH n). lia.
Qed.

(** The diagnostics read a setting through its truthiness only. *)
Lemma test_database_env (db : option Database)
    (getenv getenv' : string -> option string) :
  Py.truthy_opt (getenv' "DATABASE_URL")
    = Py.truthy_opt (getenv "DATABASE_URL") ->
  Py.truthy_opt (getenv' "DATABASE_NAME")
    = Py.truthy_opt (getenv "DATABASE_NAME") ->
  test_database db getenv' = test_database db getenv.
Proof.
  intros Hurl Hname. unfold test_database. now rewrite Hurl, Hname.
Qed.

(** C8.  The diagnostics request returns a response (status 200) whatever
    the store handle does.  When listing the collections raises, the
    exception is reported in the [database] field by at most 50 characters
    of its text; at most 10 collection names are listed; the two settings
    are reported as set or not set, and two environments in which the same
    settings are set give the same response, whatever their values. *)
Theorem test_database_never_fails (db : option Database)
    (getenv : string -> option string) :
  exists r,
    test_database db getenv = Return r
    /\ status_code_of (test_database db getenv) = 200
    /\ (List.length (collections r) <= 10)%nat
    /\ (forall d e,
          db = Some d -> list_collection_names d = inl e ->
          database r = ("❌ Error: " ++ Py.slice_to 50 e)%string
          /\ (Py.len (Py.slice_to 50 e) <= 50)%nat)
    /\ (forall d names,
          db = Some d -> list_collection_names d = inr names ->
          collections r = firstn 10 names)
    /\ database_url r =
         Some (if Py.truthy_opt (getenv "DATABASE_URL")
               then "✅ Set" else "❌ Not Set")
    /\ database_name r =
         Some (if Py.truthy_opt (getenv "DATABASE_NAME")
               then "✅ Set" else "❌ Not Set")
    /\ (forall getenv',
          Py.truthy_opt (getenv' "DATABASE_URL")
            = Py.truthy_opt (getenv "DATABASE_URL") ->
          Py.truthy_opt (getenv' "DATABASE_NAME")
            = Py.truthy_opt (getenv "DATABASE_NAME") ->
          test_database db getenv' = Return r).
Proof.
  eexists. split; [reflexivity|]. split; [reflexivity|].
  split; [|split; [|split; [|split; [reflexivity|split; [reflexivity|]]]]].
  - unfold probe_database. destruct db as [d|]; [|cbn; lia].
    destruct (list_collection_names d) as [e|names]; [cbn; lia|].
    cbn -[firstn]. apply firstn_le_length.
  - intros d e -> He. unfold probe_database. rewrite He.
    split; [reflexivity | apply slice_to_len].
  - intros d names -> Hn. unfold probe_database. rewrite Hn. reflexivity.
  - intros getenv' Hurl Hname.
    now rewrite (test_database_env db getenv getenv' Hurl Hname).
Qed.

Section RegistrationInvariant.

Context {runtime : Runtime}.

(** ** One student record per number, across registrations *)

Lemma upsert_student_count (w : World) (npm npm' name email : string) :
  student_count npm (db w) = 1%nat ->
  student_count npm (db (snd (upsert_student npm' name email w))) = 1%nat.
Proof.
  intros Hcount.
  unfold upsert_student, bind, find_one, now_utc, update_one, ret, lift,
    create_document, fresh_id, bind, now_utc, Student.new.
  cbn.
  destruct (find _ (student (db w))) eqn:Hfind; cbn.
  - unfold student_count in *. cbn.
    now rewrite filter_update_first_length.
  - destruct (EmailStr email) as [e|]; cbn; [|exact Hcount].
    unfold student_count in *. cbn.
    rewrite filter_app, length_app, Hcount. cbn.
    destruct (String.eqb npm' npm) eqn:Hsame; [|reflexivity].
    apply String.eqb_eq in Hsame. subst npm'.
    apply find_none_existsb in Hfind.
    exfalso. clear - Hcount Hfind.
    induction (student (db w)) as [|d l IH]; cbn in *; [discriminate|].
    destruct (String.eqb (StudentDoc.npm d) npm); cbn in *;
      [discriminate | auto].
Qed.

(** A registration, of any number and with any outcome, keeps the record of
    a number that has exactly one. *)
Lemma create_registration_keeps_count (w : World)
    (npm npm' name email : string) (payment_proof : option UploadFile) :
  student_count npm (db w) = 1%nat ->
  student_count npm
    (db (snd (create_registration npm' name email payment_proof w)))
  = 1%nat.
Proof.
  intros Hcount. unfold create_registration.
  destruct (negb (Py.truthy npm') || negb (Py.truthy name)
            || negb (Py.truthy email)); [exact Hcount|].
  unfold bind at 1.
  pose proof (upsert_student_count w npm npm' name email Hcount) as H1.
  destruct (upsert_student npm' name email w) as [[u|e] w1]; cbn in H1;
    [|exact H1].
  unfold student_count in *. now rewrite after_upsert_student.
Qed.

Lemma register_all_keeps_count (rs : list Registration) (w : World)
    (npm : string) :
  student_count npm (db w) = 1%nat ->
  student_count npm (db (register_all rs w)) = 1%nat.
Proof.
  revert w. induction rs as [|r rs IH]; intros w Hcount; cbn; [exact Hcount|].
  apply IH. now apply create_registration_keeps_count.
Qed.

End RegistrationInvariant.

(* ================================================================== *)
(** * Further properties of the handlers *)

Section RegistrationRuns.

Context {runtime : Runtime}.

(** ** Registration: errors, the stored payment, what is left alone *)

Lemma read_payment_proof_accepted (payment_proof : option UploadFile)
    (w : World) :
  accepted payment_proof = true ->
  read_payment_proof payment_proof w =
    (Return match payment_proof with
            | None => (None, None, None)
            | Some f => (filename f, Some (checked_mime f),
                         Some (Base64.b64encode (content f)))
            end, w).
Proof.
  destruct payment_proof as [f|]; cbn; [|reflexivity].
  intros H. unfold read_payment_proof, checked_mime in *.
  now rewrite H.
Qed.

(** The run of the upsert, case by case. *)
Lemma upsert_student_run (w : World) (npm name email e : string) :
  EmailStr email = Some e ->
  exists w1,
    upsert_student npm name email w = (Return tt, w1)
    /\ payment (db w1) = payment (db w)
    /\ test (db w1) = test (db w)
    /\ certificate (db w1) = certificate (db w)
    /\ next_id (db w1) = new_payment_id npm (db w)
    /\ clock w1 = clock w.
Proof.
  intros He.
  unfold upsert_student, bind, find_one, now_utc, update_one, ret, lift,
    create_document, fresh_id, bind, now_utc, Student.new, new_payment_id.
  cbn. rewrite <- find_is_some.
  destruct (find _ (student (db w))); cbn.
  - eexists. repeat split.
  - rewrite He. cbn. eexists. repeat split.
Qed.


(** X1.  The guard of the handler's body.  Called with an empty npm, name or
    e-mail address, [create_registration] raises the [HTTPException] with
    code 400 and detail [Data tidak lengkap] before anything is read or
    written: the world is the one it started in.  This is a statement about
    the function: the three fields are declared [Form(...)], so a request
    that leaves one of them empty is answered by the framework's own
    validation and the body, with this guard, is not run for it. *)
Theorem create_registration_missing_field (w : World)
    (npm name email : string) (payment_proof : option UploadFile) :
  Py.truthy npm = false \/ Py.truthy name = false
  \/ Py.truthy email = false ->
  create_registration npm name email payment_proof w =
    (Raise (HTTPException 400 "Data tidak lengkap"), w).
Proof.
  intros H. unfold create_registration.
  assert (E : negb (Py.truthy npm) || negb (Py.truthy name)
              || negb (Py.truthy email) = true).
  { destruct H as [-> | [-> | ->]]; cbn;
      rewrite ?orb_true_r; reflexivity. }
  rewrite E. reflexivity.
Qed.

(** The run of an accepted registration: the payment it stores. *)
Lemma create_registration_run (w : World) (npm name email e : string)
    (payment_proof : option UploadFile) :
  Py.truthy npm = true -> Py.truthy name = true -> Py.truthy email = true ->
  EmailStr email = Some e ->
  accepted payment_proof = true ->
  exists w' created,
    let p :=
      PaymentDoc.mk (new_payment_id npm (db w)) npm name e
        match payment_proof with Some f => filename f | None => None end
        match payment_proof with
        | Some f => Some (checked_mime f)
        | None => None
        end
        match payment_proof with
        | Some f => Some (Base64.b64encode (content f))
        | None => None
        end
        "pending" None None created in
    create_registration npm name email payment_proof w =
      (Return (RegistrationOut.mk "Registrasi tersimpan"
                 (Bson.str (PaymentDoc._id p))), w')
    /\ payment (db w') = (payment (db w) ++ [p])%list
    /\ test (db w') = test (db w)
    /\ certificate (db w') = certificate (db w)
    /\ next_id (db w') = N.succ (new_payment_id npm (db w))
    /\ clock w' = clock w.
Proof.
  intros Hnpm Hname Hemail He Hacc.
  unfold create_registration. rewrite Hnpm, Hname, Hemail. cbn [negb orb].
  destruct (upsert_student_run w npm name email e He)
    as (w1 & Hup & Hpay & Htest & Hcert & Hnext & Hclock).
  unfold bind at 1. rewrite Hup.
  unfold bind at 1. rewrite (read_payment_proof_accepted _ w1 Hacc).
  unfold bind, lift, create_document, fresh_id, bind, now_utc, ret,
    Payment.new.
  rewrite He.
  destruct payment_proof as [f|]; cbn -[Bson.str];
    rewrite Hpay, Htest, Hcert, Hnext, Hclock;
    eexists; eexists; repeat split; exact Hclock.
Qed.

(** X2.  An accepted registration (non-empty fields, an address [EmailStr]
    accepts, no file or a file of an allowed type) answers with the
    identifier of the one Payment record it appends: status [pending], the
    submitted npm and name, the normalised address, no verifier, and file
    fields that are all unset without a file. *)
Theorem create_registration_creates_payment (w : World)
    (npm name email e : string) (payment_proof : option UploadFile) :
  Py.truthy npm = true -> Py.truthy name = true -> Py.truthy email = true ->
  EmailStr email = Some e ->
  accepted payment_proof = true ->
  exists w' p,
    create_registration npm name email payment_proof w =
      (Return (RegistrationOut.mk "Registrasi tersimpan"
                 (Bson.str (PaymentDoc._id p))), w')
    /\ payment (db w') = (payment (db w) ++ [p])%list
    /\ PaymentDoc.npm p = npm /\ PaymentDoc.name p = name
    /\ PaymentDoc.email p = e
    /\ PaymentDoc.status p = "pending"
    /\ PaymentDoc.verified_by p = None /\ PaymentDoc.verified_at p = None
    /\ (payment_proof = None ->
        PaymentDoc.file_name p = None /\ PaymentDoc.file_mime p = None
        /\ PaymentDoc.file_data_b64 p = None).
Proof.
  intros Hnpm Hname Hemail He Hacc.
  destruct (create_registration_run w npm name email e payment_proof
              Hnpm Hname Hemail He Hacc)
    as (w' & created & Hrun & Hpay & _).
  eexists. eexists. split; [exact Hrun|]. split; [exact Hpay|].
  cbn. do 6 (split; [reflexivity|]). intros ->. repeat split.
Qed.

(** X3.  The file of an accepted registration is kept whole: the stored text
    decodes to the uploaded bytes, beside the file name and the checked
    type; and when the file is not empty the pending listing gives the
    payment the link made of that type and that text. *)
Theorem create_registration_keeps_file (w : World)
    (npm name email e : string) (f : UploadFile) :
  Py.truthy npm = true -> Py.truthy name = true -> Py.truthy email = true ->
  EmailStr email = Some e ->
  Py.str_in (checked_mime f) allowed_mime = true ->
  exists out w' p data,
    create_registration npm name email (Some f) w = (Return out, w')
    /\ payment (db w') = (payment (db w) ++ [p])%list
    /\ PaymentDoc.file_name p = filename f
    /\ PaymentDoc.file_mime p = Some (checked_mime f)
    /\ PaymentDoc.file_data_b64 p = Some data
    /\ Base64.b64decode data = Some (content f)
    /\ (content f <> [] ->
        PendingOut.file_url (pending_entry p) =
          Some ("data:" ++ checked_mime f ++ ";base64," ++ data)%string).
Proof.
  intros Hnpm Hname Hemail He Hacc.
  destruct (create_registration_run w npm name email e (Some f)
              Hnpm Hname Hemail He Hacc)
    as (w' & created & Hrun & Hpay & _).
  eexists. eexists. eexists. exists (Base64.b64encode (content f)).
  split; [exact Hrun|]. split; [exact Hpay|].
  split; [reflexivity|]. split; [reflexivity|]. split; [reflexivity|].
  split; [apply Base64Facts.b64decode_b64encode|].
  intros Hne. unfold pending_entry. cbn.
  assert (Hm : Py.truthy (checked_mime f) = true)
    by (destruct (checked_mime f); [discriminate Hacc | reflexivity]).
  assert (Hd : Py.truthy (Base64.b64encode (content f)) = true).
  { unfold Base64.b64encode. destruct (content f) as [|a [|b [|c r]]];
      [congruence | reflexivity ..]. }
  now rewrite Hm, Hd.
Qed.

(** X7.  Whatever it is given and however it ends, a registration leaves the
    Test and Certificate records alone and keeps every Payment record as it
    is: the payments afterwards are those before, followed by at most one
    new record. *)
Theorem create_registration_frame (w : World) (npm name email : string)
    (payment_proof : option UploadFile) :
  let w' := snd (create_registration npm name email payment_proof w) in
  test (db w') = test (db w)
  /\ certificate (db w') = certificate (db w)
  /\ exists new,
       payment (db w') = (payment (db w) ++ new)%list
       /\ (List.length new <= 1)%nat.
Proof.
  cbv zeta. unfold create_registration.
  destruct (negb (Py.truthy npm) || negb (Py.truthy name)
            || negb (Py.truthy email)).
  { cbn. repeat split. exists []. rewrite app_nil_r.
    split; [reflexivity | cbn; lia]. }
  unfold upsert_student, read_payment_proof, bind, find_one, now_utc,
    update_one, ret, raise, lift, create_document, fresh_id, bind, now_utc,
    Student.new, Payment.new.
  cbn.
  destruct (find _ (student (db w))); cbn;
    destruct (EmailStr email); cbn;
    destruct payment_proof as [f|]; cbn;
    try destruct (negb _); cbn;
    repeat split;
    first [ exists []; rewrite app_nil_r; split; [reflexivity | cbn; lia]
          | eexists; split; [reflexivity | cbn; lia] ].
Qed.

End RegistrationRuns.

Section StudentsUnique.

Context {runtime : Runtime}.

(** ** At most one student record per number *)

Lemma find_none_filter {D : Type} (m : D -> bool) (l : list D) :
  find m l = None -> filter m l = [].
Proof.
  induction l as [|d l IH]; cbn; [reflexivity|].
  destruct (m d); [discriminate | exact IH].
Qed.

Lemma upsert_student_at_most_one (w : World) (npm name email : string) :
  (forall n, (student_count n (db w) <= 1)%nat) ->
  forall n,
    (student_count n (db (snd (upsert_student npm name email w))) <= 1)%nat.
Proof.
  intros Hone n. specialize (Hone n).
  unfold upsert_student, bind, find_one, now_utc, update_one, ret, lift,
    create_document, fresh_id, bind, now_utc, Student.new.
  cbn.
  destruct (find _ (student (db w))) eqn:Hfind; cbn.
  - unfold student_count in *. cbn.
    now rewrite filter_update_first_length.
  - destruct (EmailStr email) as [e|]; cbn; [|exact Hone].
    unfold student_count in *. cbn.
    rewrite filter_app, length_app. cbn.
    destruct (String.eqb npm n) eqn:Hsame; cbn; [|lia].
    apply String.eqb_eq in Hsame. subst n.
    rewrite (find_none_filter _ _ Hfind). cbn. lia.
Qed.

Lemma create_registration_at_most_one (w : World)
    (npm name email : string) (payment_proof : option UploadFile) :
  (forall n, (student_count n (db w) <= 1)%nat) ->
  forall n,
    (student_count n
       (db (snd (create_registration npm name email payment_proof w)))
     <= 1)%nat.
Proof.
  intros Hone n. unfold create_registration.
  destruct (negb (Py.truthy npm) || negb (Py.truthy name)
            || negb (Py.truthy email)); [apply Hone|].
  unfold bind at 1.
  pose proof (upsert_student_at_most_one w npm name email Hone n) as H1.
  destruct (upsert_student npm name email w) as [[u|e] w1]; cbn in H1;
    [|exact H1].
  unfold student_count in *. now rewrite after_upsert_student.
Qed.

(** X6.  Registrations never give a number a second Student record: when no
    number has more than one record, none has after any sequence of
    registration requests, whatever they carry and however each ends. *)
Theorem register_all_at_most_one (rs : list Registration) (w : World) :
  (forall n, (student_count n (db w) <= 1)%nat) ->
  forall n, (student_count n (db (register_all rs w)) <= 1)%nat.
Proof.
  revert w. induction rs as [|r rs IH]; intros w Hone; cbn; [exact Hone|].
  apply IH. now apply create_registration_at_most_one.
Qed.

End StudentsUnique.

Section VerifyRuns.

Context {runtime : Runtime}.

(** ** Verification: errors, the update, what is left alone *)

(** X8.  A verification whose status is neither [approved] nor [rejected] ends
    in the [HTTPException] 400, whatever the identifier, and leaves the
    world as it was. *)
Theorem verify_payment_invalid_status (w : World) (payment_id : string)
    (body : VerifyBody.t) :
  Py.str_in (VerifyBody.status body) ["approved"; "rejected"] = false ->
  verify_payment payment_id body w =
    (Raise (HTTPException 400 "Status tidak valid"), w)
  /\ status_code_of (fst (verify_payment payment_id body w)) = 400.
Proof.
  intros H. unfold verify_payment. rewrite H. split; reflexivity.
Qed.

(** X9.  With a valid status, an identifier that has not the 24 characters of an
    object identifier ends the request in [InvalidId], a 500 response, with
    the world as it was. *)
Theorem verify_payment_wrong_length (w : World) (payment_id : string)
    (body : VerifyBody.t) :
  Py.str_in (VerifyBody.status body) ["approved"; "rejected"] = true ->
  String.length payment_id <> 24%nat ->
  verify_payment payment_id body w = (Raise (InvalidId payment_id), w)
  /\ status_code_of (fst (verify_payment payment_id body w)) = 500.
Proof.
  intros Hstatus Hlen. apply Nat.eqb_neq in Hlen.
  unfold verify_payment, bind, lift, Bson.ObjectId.
  rewrite Hstatus, Hlen. split; reflexivity.
Qed.

(** X11.  Whatever it is given and however it ends, a verification leaves the
    Student, Test and Certificate records alone, adds and removes no
    payment, and changes no field of a payment but its status and its
    verification time. *)
Theorem verify_payment_frame (w : World) (payment_id : string)
    (body : VerifyBody.t) :
  let w' := snd (verify_payment payment_id body w) in
  student (db w') = student (db w)
  /\ test (db w') = test (db w)
  /\ certificate (db w') = certificate (db w)
  /\ map payment_identity (payment (db w'))
     = map payment_identity (payment (db w)).
Proof.
  cbv zeta. unfold verify_payment, bind, lift, now_utc, update_one, raise,
    ret.
  destruct (negb _); [repeat split|].
  destruct (Bson.ObjectId payment_id) as [id|]; [|repeat split].
  cbn.
  assert (K : forall t,
    map payment_identity
      (update_first (fun p => N.eqb (PaymentDoc._id p) id)
         (set_payment_status (VerifyBody.status body) t) (payment (db w)))
    = map payment_identity (payment (db w))).
  { intros t. induction (payment (db w)) as [|p l IH]; cbn; [reflexivity|].
    destruct (N.eqb (PaymentDoc._id p) id); cbn; [reflexivity|].
    now rewrite IH. }
  destruct (Nat.eqb _ 0); cbn; repeat split; apply K.
Qed.

End VerifyRuns.

Module BsonFacts.

Import Bson.
Local Open Scope N_scope.

Lemma hex_value_hex_char (d : N) : d < 16 -> hex_value (hex_char d) = Some d.
Proof.
  intros H.
  assert (E : forallb (fun j => match hex_value (hex_char j) with
                                | Some k => k =? j
                                | None => false
                                end) (map N.of_nat (seq 0 16)) = true)
    by (vm_compute; reflexivity).
  rewrite forallb_forall in E.
  assert (Hin : In d (map N.of_nat (seq 0 16))).
  { rewrite <- (N2Nat.id d). apply in_map, in_seq. lia. }
  specialize (E d Hin).
  destruct (hex_value (hex_char d)) as [k|]; [|discriminate].
  apply N.eqb_eq in E. now subst.
Qed.

(** Reading the digits written for [v] continues the number read so far by
    the lowest [n] digits of [v]. *)
Lemma hex_number_hex_digits (n : nat) (v acc : N) (s : string) :
  hex_number acc (hex_digits n v s)
  = hex_number (acc * 16 ^ N.of_nat n + v mod 16 ^ N.of_nat n) s.
Proof.
  revert v acc s. induction n as [|n IH]; intros v acc s.
  - cbn [hex_digits]. f_equal. cbn. rewrite N.mod_1_r. lia.
  - cbn [hex_digits]. rewrite IH. cbn [hex_number].
    rewrite hex_value_hex_char by (apply N.mod_lt; lia).
    f_equal. rewrite Nat2N.inj_succ, N.pow_succ_r'.
    rewrite (N.Div0.mod_mul_r v 16 (16 ^ N.of_nat n)). lia.
Qed.

Lemma hex_digits_length (n : nat) (v : N) (s : string) :
  String.length (hex_digits n v s) = (n + String.length s)%nat.
Proof.
  revert v s. induction n as [|n IH]; intros v s; cbn [hex_digits];
    [reflexivity|].
  rewrite IH. cbn. lia.
Qed.

(** An identifier of 12 bytes is read back from its text. *)
Lemma ObjectId_str (o : oid) : o < 2 ^ 96 -> ObjectId (str o) = Some o.
Proof.
  intros H. unfold ObjectId, str.
  rewrite hex_digits_length. cbn [String.length Nat.add Nat.eqb].
  rewrite hex_number_hex_digits. cbn [hex_number].
  f_equal. change (16 ^ N.of_nat 24) with (2 ^ 96).
  rewrite N.mod_small by exact H. lia.
Qed.

End BsonFacts.

Section VerifyEffect.

Context {runtime : Runtime}.

Lemma update_first_app {D : Type} (m : D -> bool) (f : D -> D)
    (before after : list D) (d : D) :
  existsb m before = false -> m d = true ->
  update_first m f (before ++ d :: after) = (before ++ f d :: after)%list.
Proof.
  intros Hb Hd. induction before as [|x l IH]; cbn in *.
  - now rewrite Hd.
  - apply orb_false_iff in Hb as [Hx Hl]. rewrite Hx. now rewrite IH.
Qed.

Lemma existsb_app_middle {D : Type} (m : D -> bool)
    (before after : list D) (d : D) :
  m d = true -> existsb m (before ++ d :: after) = true.
Proof.
  intros Hd. rewrite existsb_app. cbn. rewrite Hd.
  now rewrite orb_true_r.
Qed.

(** The run of a verification that finds its payment. *)
Lemma verify_payment_run (w : World) (payment_id : string)
    (body : VerifyBody.t) (id : oid) (before after : list PaymentDoc.t)
    (p : PaymentDoc.t) :
  Py.str_in (VerifyBody.status body) ["approved"; "rejected"] = true ->
  Bson.ObjectId payment_id = Some id ->
  payment (db w) = (before ++ p :: after)%list ->
  existsb (fun q => N.eqb (PaymentDoc._id q) id) before = false ->
  PaymentDoc._id p = id ->
  exists w',
    verify_payment payment_id body w = (Return (VerifyOut.mk true), w')
    /\ payment (db w') =
         (before
          ++ set_payment_status (VerifyBody.status body)
               (utc (clock w (ticks w))) p :: after)%list.
Proof.
  intros Hstatus Hid Hpay Hbefore Hp.
  assert (Hm : N.eqb (PaymentDoc._id p) id = true) by now apply N.eqb_eq.
  unfold verify_payment, bind, lift, now_utc, update_one, ret.
  rewrite Hstatus, Hid. cbn. rewrite Hpay.
  rewrite (existsb_app_middle _ before after p Hm). cbn.
  eexists. split; [reflexivity|]. cbn.
  now apply update_first_app.
Qed.

(** X10.  A verification with a valid status and the identifier of a payment
    succeeds whatever the status of the payment was: the first payment of
    that identifier gets the submitted status and the time of the request as
    its verification time, every other payment stays as it was, and the
    pending listing afterwards is the one of the other payments. *)
Theorem verify_payment_sets_status (w : World) (payment_id : string)
    (body : VerifyBody.t) (id : oid) (before after : list PaymentDoc.t)
    (p : PaymentDoc.t) :
  Py.str_in (VerifyBody.status body) ["approved"; "rejected"] = true ->
  Bson.ObjectId payment_id = Some id ->
  payment (db w) = (before ++ p :: after)%list ->
  existsb (fun q => N.eqb (PaymentDoc._id q) id) before = false ->
  PaymentDoc._id p = id ->
  exists w' p',
    verify_payment payment_id body w = (Return (VerifyOut.mk true), w')
    /\ payment (db w') = (before ++ p' :: after)%list
    /\ PaymentDoc.status p' = VerifyBody.status body
    /\ PaymentDoc.verified_at p' = Some (utc (clock w (ticks w)))
    /\ payment_identity p' = payment_identity p
    /\ fst (list_pending w') =
         Return (map pending_entry
                   (filter is_pending before ++ filter is_pending after)).
Proof.
  intros Hstatus Hid Hpay Hbefore Hp.
  destruct (verify_payment_run w payment_id body id before after p
              Hstatus Hid Hpay Hbefore Hp) as (w' & Hrun & Hpay').
  eexists. eexists. split; [exact Hrun|]. split; [exact Hpay'|].
  do 3 (split; [reflexivity|]).
  unfold list_pending, bind, get_documents, ret. cbn. rewrite Hpay'.
  rewrite filter_app. cbn.
  assert (Hnot : String.eqb (VerifyBody.status body) "pending" = false).
  { cbn in Hstatus. rewrite orb_false_r in Hstatus.
    apply orb_true_iff in Hstatus as [H | H];
      apply String.eqb_eq in H; rewrite H; reflexivity. }
  now rewrite Hnot.
Qed.

(** X12.  The identifier a registration answers with is the one a verification
    finds its payment by.  In a store whose payments have identifiers below
    the next one, an accepted registration followed by a verification of the
    returned [payment_id] succeeds, gives the new payment the submitted
    status, and leaves the older payments as they were. *)
Theorem register_then_verify (w : World) (npm name email e : string)
    (payment_proof : option UploadFile) (body : VerifyBody.t) :
  Py.truthy npm = true -> Py.truthy name = true -> Py.truthy email = true ->
  EmailStr email = Some e ->
  accepted payment_proof = true ->
  Py.str_in (VerifyBody.status body) ["approved"; "rejected"] = true ->
  (forall q, In q (payment (db w)) ->
             (PaymentDoc._id q < next_id (db w))%N) ->
  (N.succ (next_id (db w)) < 2 ^ 96)%N ->
  exists out w1 w2 p,
    create_registration npm name email payment_proof w = (Return out, w1)
    /\ verify_payment (RegistrationOut.payment_id out) body w1
       = (Return (VerifyOut.mk true), w2)
    /\ payment (db w2) = (payment (db w) ++ [p])%list
    /\ PaymentDoc.npm p = npm
    /\ PaymentDoc.status p = VerifyBody.status body.
Proof.
  intros Hnpm Hname Hemail He Hacc Hstatus Hfresh Hbound.
  destruct (create_registration_run w npm name email e payment_proof
              Hnpm Hname Hemail He Hacc)
    as (w1 & created & Hrun & Hpay & _).
  cbv zeta in Hrun, Hpay.
  assert (Hnew : (next_id (db w) <= new_payment_id npm (db w)
                  <= N.succ (next_id (db w)))%N).
  { unfold new_payment_id. destruct (existsb _ _); lia. }
  assert (Hbefore :
    existsb (fun q => N.eqb (PaymentDoc._id q) (new_payment_id npm (db w)))
      (payment (db w)) = false).
  { apply not_true_is_false. intros Hex.
    apply existsb_exists in Hex as (q & Hin & Hq).
    apply N.eqb_eq in Hq. specialize (Hfresh q Hin). lia. }
  assert (Hparse :
    Bson.ObjectId (Bson.str (new_payment_id npm (db w)))
    = Some (new_payment_id npm (db w))) by (apply BsonFacts.ObjectId_str; lia).
  destruct (verify_payment_run w1 _ body _ (payment (db w)) [] _
              Hstatus Hparse Hpay Hbefore eq_refl) as (w2 & Hverify & Hpay2).
  eexists. exists w1, w2. eexists.
  split; [exact Hrun|]. split; [exact Hverify|]. split; [exact Hpay2|].
  split; reflexivity.
Qed.

End VerifyEffect.

Section ResultRuns.

Context {runtime : Runtime}.

(** ** Results: errors, the stored test, what is left alone *)

(** X13.  A result whose status is neither [pass] nor [fail] ends in the
    [HTTPException] 400 and leaves the world as it was: no Test and no
    Certificate record, whatever the attempt. *)
Theorem submit_result_invalid_status (w : World)
    (body : ResultBody.t float) :
  Py.str_in (ResultBody.status body) ["pass"; "fail"] = false ->
  submit_result body w =
    (Raise (HTTPException 400 "Status hasil tidak valid"), w)
  /\ status_code_of (fst (submit_result body w)) = 400.
Proof.
  intros H. unfold submit_result. rewrite H. split; reflexivity.
Qed.

(** The run of a valid submission. *)
Lemma submit_result_run (w : World) (body : ResultBody.t float) :
  Py.str_in (ResultBody.status body) ["pass"; "fail"] = true ->
  1 <= ResultBody.attempt body ->
  exists w',
    let t :=
      TestDoc.mk (next_id (db w)) (ResultBody.npm body)
        (Some (ResultBody.attempt body)) (Some (ResultBody.score body))
        (ResultBody.status body) (Some (utc (clock w (ticks w))))
        (utc (clock w (1 + ticks w))) in
    let c :=
      CertificateDoc.mk (N.succ (next_id (db w))) (ResultBody.npm body)
        (Some (ResultBody.attempt body))
        (Some (utc (clock w (3 + ticks w))))
        (utc (clock w (4 + ticks w))) in
    submit_result body w =
      (Return (ResultOut.mk true
                 (if String.eqb (ResultBody.status body) "pass"
                  then Some (submit_result_cert_url body
                               (local (clock w (2 + ticks w))))
                  else None)), w')
    /\ test (db w') = (test (db w) ++ [t])%list
    /\ certificate (db w') =
         (certificate (db w)
          ++ if String.eqb (ResultBody.status body) "pass"
             then [c] else [])%list
    /\ student (db w') = student (db w)
    /\ payment (db w') = payment (db w)
    /\ clock w' = clock w.
Proof.
  intros Hstatus Hattempt.
  assert (Hge : (ResultBody.attempt body <? 1) = false)
    by (apply Z.ltb_ge; lia).
  unfold submit_result, bind, now_utc, now_local, lift, Test.new,
    Certificate.new, create_document, fresh_id, bind, now_utc, ret.
  rewrite Hstatus, Hge. cbn -[submit_result_cert_url String.eqb].
  destruct (String.eqb (ResultBody.status body) "pass");
    cbn -[submit_result_cert_url];
    eexists; (split; [reflexivity|]); cbn -[submit_result_cert_url];
    repeat split; symmetry; apply app_nil_r.
Qed.

(** X14.  A result with a valid status and an attempt of at least 1 appends one
    Test record with the submitted npm, attempt, score and status and the
    time of the request, whatever tests are stored already: there is no
    check against an earlier record of the same attempt. *)
Theorem submit_result_appends_test (w : World) (body : ResultBody.t float) :
  Py.str_in (ResultBody.status body) ["pass"; "fail"] = true ->
  1 <= ResultBody.attempt body ->
  exists out w' t,
    submit_result body w = (Return out, w')
    /\ ResultOut.ok out = true
    /\ test (db w') = (test (db w) ++ [t])%list
    /\ TestDoc.npm t = ResultBody.npm body
    /\ TestDoc.attempt t = Some (ResultBody.attempt body)
    /\ TestDoc.score t = Some (ResultBody.score body)
    /\ TestDoc.status t = ResultBody.status body
    /\ TestDoc.taken_at t = Some (utc (clock w (ticks w))).
Proof.
  intros Hstatus Hattempt.
  destruct (submit_result_run w body Hstatus Hattempt)
    as (w' & Hrun & Htest & _).
  eexists. eexists. eexists. split; [exact Hrun|]. split; [reflexivity|].
  split; [exact Htest|]. repeat split.
Qed.

(** X15.  The same result submitted twice is stored twice: both requests
    succeed, and the store ends with two more Test records of the same npm
    and attempt. *)
Theorem submit_result_twice (w : World) (body : ResultBody.t float) :
  Py.str_in (ResultBody.status body) ["pass"; "fail"] = true ->
  1 <= ResultBody.attempt body ->
  exists out1 w1 out2 w2 t1 t2,
    submit_result body w = (Return out1, w1)
    /\ submit_result body w1 = (Return out2, w2)
    /\ test (db w2) = (test (db w) ++ [t1; t2])%list
    /\ TestDoc.npm t1 = TestDoc.npm t2
    /\ TestDoc.attempt t1 = Some (ResultBody.attempt body)
    /\ TestDoc.attempt t2 = Some (ResultBody.attempt body).
Proof.
  intros Hstatus Hattempt.
  destruct (submit_result_run w body Hstatus Hattempt)
    as (w1 & Hrun1 & Htest1 & _).
  destruct (submit_result_run w1 body Hstatus Hattempt)
    as (w2 & Hrun2 & Htest2 & _).
  cbv zeta in *.
  do 6 eexists. split; [exact Hrun1|]. split; [exact Hrun2|].
  split; [rewrite Htest2, Htest1, <- app_assoc; reflexivity|].
  repeat split.
Qed.

(** X16.  Whatever it is given and however it ends, a result submission leaves
    the Student and Payment records alone and keeps every Test and
    Certificate record: each of the two collections is the one before,
    followed by at most one new record, and a certificate is never added
    without a test. *)
Theorem submit_result_frame (w : World) (body : ResultBody.t float) :
  let w' := snd (submit_result body w) in
  student (db w') = student (db w)
  /\ payment (db w') = payment (db w)
  /\ exists new_tests new_certificates,
       test (db w') = (test (db w) ++ new_tests)%list
       /\ certificate (db w') = (certificate (db w) ++ new_certificates)%list
       /\ (List.length new_certificates <= List.length new_tests <= 1)%nat.
Proof.
  cbv zeta.
  unfold submit_result, bind, now_utc, now_local, lift, Test.new,
    Certificate.new, create_document, fresh_id, bind, now_utc, ret, raise.
  assert (Hnone : forall s : Store,
    exists nt nc : list _,
      test s = (test s ++ nt)%list
      /\ certificate s = (certificate s ++ nc)%list
      /\ (List.length nc <= List.length nt <= 1)%nat).
  { intros s. exists [], []. rewrite !app_nil_r. cbn. repeat split; lia. }
  destruct (Py.str_in (ResultBody.status body) ["pass"; "fail"]);
    cbn -[String.eqb Z.ltb]; [|do 2 (split; [reflexivity|]); apply Hnone].
  destruct (ResultBody.attempt body <? 1); cbn -[String.eqb];
    [do 2 (split; [reflexivity|]); apply Hnone|].
  destruct (String.eqb (ResultBody.status body) "pass"); cbn;
    do 2 (split; [reflexivity|]).
  - eexists; eexists. split; [reflexivity|]. split; [reflexivity|]. cbn. lia.
  - eexists; exists [].
    split; [reflexivity|]. split; [symmetry; apply app_nil_r|]. cbn. lia.
Qed.

End ResultRuns.

Section SortStable.

Context {A : Type} (key : A -> Z).

(** ** The sort keeps the order of equal keys *)

Lemma insert_by_filter (k : Z) (x : A) (l : list A) :
  filter (fun y => key y =? k) (Py.insert_by key x l)
  = filter (fun y => key y =? k) (x :: l).
Proof.
  induction l as [|y l IH]; [reflexivity|].
  cbn [Py.insert_by]. destruct (key x <=? key y) eqn:Hxy; [reflexivity|].
  cbn [filter] in *. rewrite IH.
  destruct (key x =? k) eqn:Hx; [|reflexivity].
  destruct (key y =? k) eqn:Hy; [|reflexivity].
  apply Z.eqb_eq in Hx, Hy. apply Z.leb_gt in Hxy. lia.
Qed.

Lemma sorted_filter (k : Z) (l : list A) :
  filter (fun y => key y =? k) (Py.sorted key l)
  = filter (fun y => key y =? k) l.
Proof.
  induction l as [|x l IH]; [reflexivity|].
  cbn [Py.sorted]. rewrite insert_by_filter. cbn [filter]. now rewrite IH.
Qed.

End SortStable.

Section HistoryRuns.

Context {runtime : Runtime}.

(** ** History: what it reads, what it lists *)

Lemma history_entry_at (npm : string) (t : TestDoc.t float) (w : World) :
  exists e w',
    history_entry npm t w = (Return e, w')
    /\ db w' = db w /\ clock w' = clock w
    /\ entry_at npm (certificate (db w)) (clock w) t e.
Proof.
  destruct (history_entry_spec npm t w)
    as (e & w' & Hrun & Hdb & Hclock & Hurl & Hent).
  exists e, w'. repeat split; try assumption; try apply Hent.
  exists (ticks w). exact Hurl.
Qed.

Lemma for_each_history_at (npm : string) (l : list (TestDoc.t float))
    (w : World) :
  exists out w',
    for_each (history_entry npm) l w = (Return out, w')
    /\ db w' = db w /\ clock w' = clock w
    /\ Forall2 (entry_at npm (certificate (db w)) (clock w)) l out.
Proof.
  revert w. induction l as [|t l IH]; intros w; cbn.
  - exists [], w. repeat split. constructor.
  - destruct (history_entry_at npm t w) as (e & w1 & He & Hdb & Hclk & Hent).
    destruct (IH w1) as (out & w2 & Hout & Hdb2 & Hclk2 & Hall).
    exists (e :: out), w2. unfold bind. rewrite He, Hout. cbn.
    repeat split; [congruence | congruence |].
    constructor; [exact Hent|]. now rewrite <- Hdb, <- Hclk.
Qed.

(** The run of the history request. *)
Lemma student_history_run (w : World) (npm : string) :
  exists out w',
    student_history npm w = (Return out, w')
    /\ db w' = db w /\ clock w' = clock w
    /\ Forall2 (entry_at npm (certificate (db w)) (clock w))
         (Py.sorted attempt_key (tests_of npm (db w))) out.
Proof.
  unfold student_history, bind, get_documents. cbn.
  apply for_each_history_at.
Qed.

Lemma Forall2_partner_left {A B : Type} (R : A -> B -> Prop) (l : list A)
    (l' : list B) (a : A) :
  Forall2 R l l' -> In a l -> exists b, In b l' /\ R a b.
Proof.
  intros F. induction F as [|x y l l' Hxy F IH]; cbn; [tauto|].
  intros [<- | Hin].
  - exists y. auto.
  - destruct (IH Hin) as (b & Hb & Hab). exists b. auto.
Qed.

Lemma Forall2_filter_map {A B C : Type} (R : A -> B -> Prop)
    (pa : A -> bool) (pb : B -> bool) (fa : A -> C) (fb : B -> C)
    (l : list A) (l' : list B) :
  (forall a b, R a b -> pb b = pa a /\ fb b = fa a) ->
  Forall2 R l l' ->
  map fb (filter pb l') = map fa (filter pa l).
Proof.
  intros H F. induction F as [|a b l l' Hab F IH]; cbn; [reflexivity|].
  destruct (H a b Hab) as [-> Hf].
  destruct (pa a); cbn; now rewrite ?Hf, IH.
Qed.

(** X18.  The history request reads only: the store afterwards is the store
    before, and the answer has one entry per Test record of the npm, so it
    is empty for a student without tests. *)
Theorem student_history_reads_only (w : World) (npm : string) :
  exists out w',
    student_history npm w = (Return out, w')
    /\ db w' = db w
    /\ List.length out = List.length (tests_of npm (db w))
    /\ (tests_of npm (db w) = [] -> out = []).
Proof.
  destruct (student_history_run w npm) as (out & w' & Hrun & Hdb & _ & Hall).
  exists out, w'. split; [exact Hrun|]. split; [exact Hdb|].
  assert (Hlen : List.length out = List.length (tests_of npm (db w))).
  { rewrite <- (Forall2_length Hall).
    apply Permutation_length, SortFacts.sorted_perm. }
  split; [exact Hlen|].
  intros Hnone. rewrite Hnone in Hlen. now destruct out.
Qed.


(** X20.  Tests of the same attempt are listed in the order the store has them:
    for every attempt number, the identifiers of the entries with that
    attempt are those of the tests with that attempt, in store order. *)
Theorem student_history_stable (w : World) (npm : string) (k : Z) :
  exists out w',
    student_history npm w = (Return out, w')
    /\ map HistoryOut.id (filter (fun e => entry_key e =? k) out)
       = map (fun t => Bson.str (TestDoc._id t))
           (filter (fun t => attempt_key t =? k) (tests_of npm (db w))).
Proof.
  destruct (student_history_run w npm) as (out & w' & Hrun & _ & _ & Hall).
  exists out, w'. split; [exact Hrun|].
  rewrite <- (sorted_filter attempt_key k (tests_of npm (db w))).
  apply (Forall2_filter_map
           (entry_at npm (certificate (db w)) (clock w)) _ _ _ _ _ _
           (fun a b H =>
              match H with
              | conj Hid (conj Hatt _) =>
                  conj (f_equal
                          (fun o => match o with Some a => a | None => 0 end
                                    =? k) Hatt) Hid
              end) Hall).
Qed.

Lemma entry_within_widen (npm : string) (certs : list CertificateDoc.t)
    (clk : nat -> instant) (lo hi lo' hi' : nat) (t : TestDoc.t float)
    (e : HistoryOut.t float) :
  (lo' <= lo)%nat -> (hi <= hi')%nat ->
  entry_within npm certs clk lo hi t e ->
  entry_within npm certs clk lo' hi' t e.
Proof.
  intros Hlo Hhi (Hid & Hatt & Hsc & Hst & Htk & Hurl).
  unfold entry_within. do 5 (split; [assumption|]).
  destruct (has_certificate npm certs t); [|exact Hurl].
  destruct Hurl as (k & Hk & Hurl). exists k. split; [lia | exact Hurl].
Qed.

(** One turn of the loop reads the clock at most once, at the current tick. *)
Lemma history_entry_within (npm : string) (t : TestDoc.t float) (w : World) :
  exists e w',
    history_entry npm t w = (Return e, w')
    /\ db w' = db w /\ clock w' = clock w
    /\ (ticks w <= ticks w')%nat
    /\ entry_within npm (certificate (db w)) (clock w) (ticks w) (ticks w')
         t e.
Proof.
  unfold history_entry, bind, find_one, now_local, ret, entry_within,
    has_certificate.
  cbn -[Bson.str student_history_cert_url]. rewrite find_is_some.
  destruct (String.eqb (TestDoc.status t) "pass"
            && existsb _ (certificate (db w))) eqn:Hc;
    cbn -[Bson.str student_history_cert_url];
    (eexists; eexists; split; [reflexivity|]);
    cbn -[Bson.str student_history_cert_url];
    (do 2 (split; [reflexivity|])); (split; [lia|]);
    (do 5 (split; [reflexivity|])).
  - exists (ticks w). split; [lia | reflexivity].
  - reflexivity.
Qed.

Lemma for_each_history_within (npm : string) (l : list (TestDoc.t float))
    (w : World) :
  exists out w',
    for_each (history_entry npm) l w = (Return out, w')
    /\ db w' = db w /\ clock w' = clock w
    /\ (ticks w <= ticks w')%nat
    /\ Forall2
         (entry_within npm (certificate (db w)) (clock w) (ticks w)
            (ticks w'))
         l out.
Proof.
  revert w. induction l as [|t l IH]; intros w; cbn.
  - exists [], w. repeat split; [lia | constructor].
  - destruct (history_entry_within npm t w)
      as (e & w1 & He & Hdb & Hclk & Hle & Hent).
    destruct (IH w1) as (out & w2 & Hout & Hdb2 & Hclk2 & Hle2 & Hall).
    exists (e :: out), w2. unfold bind. rewrite He, Hout. cbn.
    split; [reflexivity|].
    split; [congruence|]. split; [congruence|]. split; [lia|].
    constructor.
    + apply (entry_within_widen _ _ _ (ticks w) (ticks w1));
        [lia | exact Hle2 | exact Hent].
    + rewrite Hdb, Hclk in Hall.
      clear - Hall Hle. induction Hall as [|x y l l' Hxy _ IHl];
        constructor; [|exact IHl].
      apply (entry_within_widen _ _ _ (ticks w1) (ticks w2));
        [exact Hle | lia | exact Hxy].
Qed.

(** X21.  Every link of the history is the document MIME prefix followed by a
    payload that decodes to the certificate text of the npm with the stored
    attempt and score as Python prints them ([None] for an absent one) and
    the local date of a reading of the clock made during the request: one of
    the readings from the tick the request started at up to, and not
    including, the tick it ended at. *)
Theorem student_history_link_text (w : World) (npm : string) :
  exists out w',
    student_history npm w = (Return out, w')
    /\ clock w' = clock w
    /\ forall e url, In e out -> HistoryOut.certificate_url e = Some url ->
         exists payload k,
           (ticks w <= k < ticks w')%nat
           /\ url = (certificate_link_prefix ++ payload)%string
           /\ Base64.b64decode payload =
                Some (list_byte_of_string
                        (certificate_text npm
                           (Py.format_int (HistoryOut.attempt e))
                           (format_score (HistoryOut.score e))
                           (strftime_dmY (local (clock w k))))).
Proof.
  destruct (for_each_history_within npm
              (Py.sorted attempt_key (tests_of npm (db w))) w)
    as (out & w' & Hrun & _ & Hclk & _ & Hall).
  exists out, w'. split.
  { unfold student_history, bind, get_documents. cbn. exact Hrun. }
  split; [exact Hclk|]. intros e url Hin Hsome.
  destruct (SortFacts.Forall2_partner _ _ _ _ Hall Hin)
    as (t & _ & _ & Hatt & Hsc & _ & _ & Hurl).
  destruct (has_certificate npm (certificate (db w)) t);
    [|rewrite Hurl in Hsome; discriminate].
  destruct Hurl as (k & Hk & Hurl). rewrite Hurl in Hsome.
  injection Hsome as <-.
  exists (Base64.b64encode
            (student_history_pdf_content npm t (local (clock w k)))), k.
  split; [exact Hk|]. split; [reflexivity|].
  rewrite Base64Facts.b64decode_b64encode, Hatt, Hsc. reflexivity.
Qed.

(** X17.  A passed result is in the history afterwards.  After a submission with
    status [pass] and an attempt of at least 1, under a clock whose readings
    all print the same date, the history of the npm has an entry with the
    submitted attempt and score, status [pass], and the link the submission
    returned. *)
Theorem submit_then_history (w : World) (body : ResultBody.t float) :
  ResultBody.status body = "pass" ->
  1 <= ResultBody.attempt body ->
  (forall i j, strftime_dmY (local (clock w i))
               = strftime_dmY (local (clock w j))) ->
  exists url w1 out w2 e,
    submit_result body w = (Return (ResultOut.mk true (Some url)), w1)
    /\ student_history (ResultBody.npm body) w1 = (Return out, w2)
    /\ In e out
    /\ HistoryOut.attempt e = Some (ResultBody.attempt body)
    /\ HistoryOut.score e = Some (ResultBody.score body)
    /\ HistoryOut.status e = "pass"
    /\ HistoryOut.certificate_url e = Some url.
Proof.
  intros Hstatus Hattempt Hdate.
  assert (Hvalid : Py.str_in (ResultBody.status body) ["pass"; "fail"] = true)
    by now rewrite Hstatus.
  destruct (submit_result_run w body Hvalid Hattempt)
    as (w1 & Hrun & Htest & Hcert & _ & _ & Hclock).
  cbv zeta in Hrun, Htest, Hcert.
  rewrite Hstatus in Hrun, Hcert. cbn [String.eqb Ascii.eqb Bool.eqb] in *.
  change (String.eqb "pass" "pass") with true in *. cbv iota in Hrun, Hcert.
  destruct (student_history_run w1 (ResultBody.npm body))
    as (out & w2 & Hhist & _ & _ & Hall).
  set (t := TestDoc.mk (next_id (db w)) (ResultBody.npm body)
              (Some (ResultBody.attempt body))
              (Some (ResultBody.score body)) (ResultBody.status body)
              (Some (utc (clock w (ticks w))))
              (utc (clock w (1 + ticks w)))) in *.
  assert (Hin : In t (Py.sorted attempt_key
                        (tests_of (ResultBody.npm body) (db w1)))).
  { apply (Permutation_in _
             (Permutation_sym (SortFacts.sorted_perm attempt_key _))).
    unfold tests_of. apply filter_In. split.
    - rewrite Htest. apply in_or_app. right. now left.
    - apply String.eqb_refl. }
  destruct (Forall2_partner_left _ _ _ _ Hall Hin)
    as (e & He & _ & Hatt & Hsc & Hst & _ & k & Hurl).
  eexists. exists w1, out, w2, e.
  split; [exact Hrun|]. split; [exact Hhist|]. split; [exact He|].
  split; [exact Hatt|]. split; [exact Hsc|].
  split; [rewrite Hst; exact Hstatus|].
  rewrite Hurl.
  assert (Hc : has_certificate (ResultBody.npm body) (certificate (db w1)) t
               = true).
  { unfold has_certificate. subst t. cbn [TestDoc.status TestDoc.attempt].
    rewrite Hstatus, Hcert, existsb_app. cbn.
    unfold certificate_matches. cbn.
    now rewrite String.eqb_refl, Z.eqb_refl, orb_true_r. }
  rewrite Hc. f_equal.
  rewrite (student_history_cert_url_submit (ResultBody.npm body)
             (ResultBody.status body) t (ResultBody.attempt body)
             (ResultBody.score body) _ eq_refl eq_refl).
  destruct body as [npm a s st].
  cbn [ResultBody.npm ResultBody.attempt ResultBody.score ResultBody.status].
  apply submit_result_cert_url_date. rewrite Hclock. apply Hdate.
Qed.

End HistoryRuns.

(** ** Diagnostics: the three states, the exception text *)

Lemma slice_to_prefix (n : nat) (s : string) :
  exists rest, s = (Py.slice_to n s ++ rest)%string.
Proof.
  revert n. induction s as [|c s IH]; intros n; cbn.
  - exists "". reflexivity.
  - destruct (Py.is_continuation c).
    + destruct (IH n) as [rest H]. exists rest. cbn. now rewrite <- H.
    + destruct n as [|n].
      * exists (String c s). reflexivity.
      * destruct (IH n) as [rest H]. exists rest. cbn. now rewrite <- H.
Qed.

Lemma slice_to_all (n : nat) (s : string) :
  (Py.len s <= n)%nat -> Py.slice_to n s = s.
Proof.
  revert n. induction s as [|c s IH]; intros n; cbn; [reflexivity|].
  destruct (Py.is_continuation c); intros H.
  - now rewrite IH.
  - destruct n as [|n]; [lia|]. rewrite IH by lia. reflexivity.
Qed.

(** X22.  The diagnostics report one of three states of the store handle.
    Without a handle: not initialised, not connected, no collections.  With
    a handle whose listing raises: the assignments made before the call
    stay, so the status is [Connected] though nothing is listed.  With a
    handle whose listing returns: connected and working.  The backend is
    reported as running in all three. *)
Theorem test_database_states (db : option Database)
    (getenv : string -> option string) :
  exists r,
    test_database db getenv = Return r
    /\ backend r = "✅ Running"
    /\ (db = None ->
        database r = "⚠️  Available but not initialized"
        /\ connection_status r = "Not Connected" /\ collections r = [])
    /\ (forall d e,
          db = Some d -> list_collection_names d = inl e ->
          connection_status r = "Connected" /\ collections r = [])
    /\ (forall d names,
          db = Some d -> list_collection_names d = inr names ->
          database r = "✅ Connected & Working"
          /\ connection_status r = "Connected").
Proof.
  eexists. split; [reflexivity|].
  split; [unfold probe_database;
          destruct db as [d|]; [destruct (list_collection_names d)|];
          reflexivity|].
  split; [intros ->; repeat split|].
  split; intros d x -> H; unfold test_database, probe_database; rewrite H;
    split; reflexivity.
Qed.

(** X23.  The text of an exception is reported from its start: what follows
    [Error: ] in the [database] field is a prefix of the text, of at most 50
    characters, and the whole text when it has no more than 50. *)
Theorem test_database_exception_text (d : Database)
    (getenv : string -> option string) (e : string) :
  list_collection_names d = inl e ->
  exists r shown rest,
    test_database (Some d) getenv = Return r
    /\ database r = ("❌ Error: " ++ shown)%string
    /\ e = (shown ++ rest)%string
    /\ (Py.len shown <= 50)%nat
    /\ ((Py.len e <= 50)%nat -> shown = e).
Proof.
  intros H. destruct (slice_to_prefix 50 e) as [rest Hrest].
  eexists. exists (Py.slice_to 50 e), rest.
  split; [reflexivity|].
  split; [unfold test_database, probe_database; rewrite H; reflexivity|].
  split; [exact Hrest|]. split; [apply slice_to_len|].
  apply slice_to_all.
Qed.

(** ** The size of an encoded file *)

Lemma encode_values_length (bs : list N) :
  String.length (Base64.encode_values bs)
  = (4 * ((List.length bs + 2) / 3))%nat.
Proof.
  induction bs as [|a|a b|a b c rest IH] using Base64Facts.list_ind3;
    try reflexivity.
  cbn [Base64.encode_values String.length List.length]. rewrite IH.
  replace (S (S (S (List.length rest))) + 2)%nat
    with (List.length rest + 2 + 1 * 3)%nat by lia.
  rewrite Nat.div_add by lia. lia.
Qed.

(** X24.  The text kept for an uploaded file or a certificate has four
    characters for every three bytes, the last group filled up:
    [4 * ceil(n / 3)] characters for [n] bytes. *)
Theorem b64encode_length (raw : list byte) :
  String.length (Base64.b64encode raw)
  = (4 * ((List.length raw + 2) / 3))%nat.
Proof.
  unfold Base64.b64encode. now rewrite encode_values_length, length_map.
Qed.

Section RegistrationEffects.

Context {runtime : Runtime}.

(** ** Registration: the new student, the listing afterwards *)

(** X4.  A registration for an npm without a Student record, with non-empty
    fields and an address [EmailStr] accepts, appends one Student record
    with the npm, the name and the normalised address and no update time.
    The record is written before the file is looked at: it is there also
    when the request then ends in the 400 of a refused file type. *)
Theorem create_registration_creates_student (w : World)
    (npm name email e : string) (payment_proof : option UploadFile) :
  Py.truthy npm = true -> Py.truthy name = true -> Py.truthy email = true ->
  EmailStr email = Some e ->
  student_count npm (db w) = 0%nat ->
  student (db (snd (create_registration npm name email payment_proof w)))
  = (student (db w)
     ++ [StudentDoc.mk (next_id (db w)) npm name e
           (utc (clock w (ticks w))) None])%list.
Proof.
  intros Hnpm Hname Hemail He Hcount.
  assert (Hfind : find (fun d => String.eqb (StudentDoc.npm d) npm)
                    (student (db w)) = None).
  { unfold student_count in Hcount.
    induction (student (db w)) as [|d l IH]; cbn in *; [reflexivity|].
    destruct (String.eqb (StudentDoc.npm d) npm); cbn in *;
      [discriminate | auto]. }
  unfold create_registration. rewrite Hnpm, Hname, Hemail. cbn [negb orb].
  unfold bind at 1.
  assert (Hup : exists w1,
    upsert_student npm name email w = (Return tt, w1)
    /\ student (db w1)
       = (student (db w)
          ++ [StudentDoc.mk (next_id (db w)) npm name e
                (utc (clock w (ticks w))) None])%list).
  { unfold upsert_student, bind, find_one, lift, create_document, fresh_id,
      bind, now_utc, ret, Student.new.
    cbn. rewrite Hfind, He. cbn. eexists. split; reflexivity. }
  destruct Hup as (w1 & Hup & Hstud). rewrite Hup.
  now rewrite after_upsert_student.
Qed.

(** X5.  An accepted registration shows in the pending listing: the listing
    afterwards is the listing before followed by the entry of the new
    payment, with the submitted npm and name and the normalised address. *)
Theorem create_registration_listed (w : World) (npm name email e : string)
    (payment_proof : option UploadFile) :
  Py.truthy npm = true -> Py.truthy name = true -> Py.truthy email = true ->
  EmailStr email = Some e ->
  accepted payment_proof = true ->
  exists out w' before entry,
    create_registration npm name email payment_proof w = (Return out, w')
    /\ fst (list_pending w) = Return before
    /\ fst (list_pending w') = Return (before ++ [entry])%list
    /\ PendingOut._id entry = RegistrationOut.payment_id out
    /\ PendingOut.npm entry = npm
    /\ PendingOut.name entry = name
    /\ PendingOut.email entry = e.
Proof.
  intros Hnpm Hname Hemail He Hacc.
  destruct (create_registration_run w npm name email e payment_proof
              Hnpm Hname Hemail He Hacc)
    as (w' & created & Hrun & Hpay & _).
  cbv zeta in Hrun, Hpay.
  eexists. exists w'. eexists. eexists.
  split; [exact Hrun|]. split; [reflexivity|].
  split.
  - unfold list_pending, bind, get_documents, ret. cbn -[Bson.str].
    rewrite Hpay, filter_app, map_app. reflexivity.
  - repeat split.
Qed.

End RegistrationEffects.

(* ================================================================== *)
(** * The properties on the sample data *)

Module Examples.

Import Sample.

(** The test vectors of RFC 4648 and their decoding. *)
Example b64encode_vectors :
  map (fun s => Base64.b64encode (list_byte_of_string s))
    [""; "f"; "fo"; "foo"; "foob"; "fooba"; "foobar"]
  = [""; "Zg=="; "Zm8="; "Zm9v"; "Zm9vYg=="; "Zm9vYmE="; "Zm9vYmFy"].
Proof. reflexivity. Qed.

Example b64decode_vector :
  Base64.b64decode "Zm9vYmE=" = Some (list_byte_of_string "fooba").
Proof. reflexivity. Qed.

Example b64decode_refuses_early_padding :
  Base64.b64decode "Zg==Zg==" = None.
Proof. reflexivity. Qed.

Example strftime_noon : strftime_dmY noon = "07-03-2024".
Proof. reflexivity. Qed.

Example str_int_negative : Py.str_int (-15) = "-15".
Proof. reflexivity. Qed.

(** [sorted] keeps the order of elements with equal keys. *)
Example sorted_is_stable :
  Py.sorted fst [(2, "a"); (1, "b"); (2, "c"); (1, "d")]
  = [(1, "b"); (1, "d"); (2, "a"); (2, "c")].
Proof. reflexivity. Qed.

Example object_id_upper_case :
  Bson.ObjectId "0000000000000000000000FF" = Some 255%N
  /\ Bson.str 255%N = unknown_payment_id.
Proof. split; reflexivity. Qed.

Example object_id_wrong_length : Bson.ObjectId "ff" = None.
Proof. reflexivity. Qed.

(** The first two code points of a text whose first one takes three
    bytes. *)
Example slice_to_code_points : Py.slice_to 2 "✅ Set" = "✅ ".
Proof. reflexivity. Qed.

(** A registration without a file, then the pending listing: one entry of
    2106000 with a null [file_url]. *)
Example register_then_list_pending :
  let w := snd (create_registration "2106000" "Budi" "budi@x.com" None
                  empty_world) in
  fst (create_registration "2106000" "Budi" "budi@x.com" None empty_world)
    = Return (RegistrationOut.mk "Registrasi tersimpan"
                "000000000000000000000001")
  /\ fst (list_pending w)
     = Return [PendingOut.mk "000000000000000000000001" "2106000" "Budi"
                 "budi@x.com" None].
Proof. split; reflexivity. Qed.

(** The store the zero-byte image leaves is the one used below. *)
Example empty_png_stored :
  payment (db empty_png_world) = [empty_png_payment].
Proof. reflexivity. Qed.

Example passed_world_tests : test (db passed_world) = [passed_test].
Proof. reflexivity. Qed.

(** The diagnostics when listing the collections fails. *)
Example test_database_store_down :
  option_map database
    (match test_database
             (Some {| name := None;
                      list_collection_names := inl "connection refused" |})
             (fun _ => Some "mongodb://secret") with
     | Return r => Some r
     | Raise _ => None
     end)
  = Some "❌ Error: connection refused".
Proof. reflexivity. Qed.

(** C10 on the sample: a passed result for attempt 0 ends in a 500 response
    and stores nothing. *)
Lemma attempt_zero_rejected :
  status_code_of (fst (submit_result attempt_zero empty_world)) = 500
  /\ test (db (snd (submit_result attempt_zero empty_world))) = []
  /\ certificate (db (snd (submit_result attempt_zero empty_world))) = [].
Proof.
  destruct (submit_result_attempt_below_one empty_world attempt_zero
              eq_refl eq_refl) as (w' & Hrun & Hcode & Htest & Hcert).
  split; [exact Hcode|].
  rewrite Hrun. cbn [fst snd]. rewrite Htest, Hcert. split; reflexivity.
Defined.

(** C1 at attempt 0: the submission has status [pass], and yet no
    certificate is created and no link is returned. *)
Lemma pass_at_attempt_zero_stores_no_certificate :
  ResultBody.status attempt_zero = "pass"
  /\ fst (submit_result attempt_zero empty_world)
     = Raise (ValidationError "Test" "attempt")
  /\ certificate (db (snd (submit_result attempt_zero empty_world)))
     = certificate (db empty_world).
Proof. repeat split. Qed.

(** C1, as amended, on the sample: the first passed attempt of 2106000
    gives one certificate record and the link of the scored text. *)
Lemma first_pass_certificate :
  exists w' c payload,
    submit_result first_pass empty_world =
      (Return (ResultOut.mk true
                 (Some (certificate_link_prefix ++ payload)%string)), w')
    /\ certificate (db w') = [c]
    /\ Base64.b64decode payload =
         Some (list_byte_of_string
                 (certificate_text "2106000" "1" "85.0" "07-03-2024")).
Proof.
  assert (Hone : 1 <= ResultBody.attempt first_pass) by (cbn; lia).
  destruct (submit_result_certificate empty_world first_pass Hone)
    as [Hpass _].
  destruct (Hpass eq_refl) as (w' & c & payload & Hrun & Hcert & _ & _ & Hdec).
  exists w', c, payload. repeat split; assumption.
Defined.

(** C2 on the sample: the history entry of the passed test carries the link
    the submission returned. *)
Lemma passed_test_same_link :
  exists e w' w2' url,
    history_entry "2106000" passed_test passed_world = (Return e, w')
    /\ HistoryOut.certificate_url e = Some url
    /\ submit_result first_pass empty_world =
         (Return (ResultOut.mk true (Some url)), w2').
Proof.
  assert (Hone : 1 <= 1) by lia.
  apply (history_link_is_result_link "2106000" passed_test 1 85
           passed_world empty_world eq_refl eq_refl eq_refl Hone eq_refl
           eq_refl).
Defined.

(** C3 on the sample: approving the payment of Budi twice. *)
Lemma approve_twice :
  exists w1 w2,
    verify_payment budi_payment_id (VerifyBody.mk "approved") budi_world
      = (Return (VerifyOut.mk true), w1)
    /\ verify_payment budi_payment_id (VerifyBody.mk "approved") w1
      = (Return (VerifyOut.mk true), w2)
    /\ observable (db w2) = observable (db w1)
    /\ fst (list_pending w2) = fst (list_pending w1).
Proof.
  apply (verify_payment_idempotent budi_world budi_payment_id
           (VerifyBody.mk "approved") 1%N eq_refl eq_refl eq_refl).
Defined.

(** C4 at a malformed identifier: no payment matches ["abc"], and the
    request ends in the [InvalidId] of the identifier, a 500 response. *)
Lemma malformed_id_is_not_404 :
  payment (db empty_world) = []
  /\ fst (verify_payment "abc" (VerifyBody.mk "approved") empty_world)
     = Raise (InvalidId "abc")
  /\ status_code_of
       (fst (verify_payment "abc" (VerifyBody.mk "approved") empty_world))
     = 500.
Proof. repeat split. Qed.

(** C4, as amended, on the sample: a well-formed identifier of no
    payment. *)
Lemma unknown_id_is_404 :
  status_code_of
    (fst (verify_payment unknown_payment_id (VerifyBody.mk "rejected")
            budi_world)) = 404.
Proof.
  destruct (verify_payment_not_found budi_world unknown_payment_id
              (VerifyBody.mk "rejected") 255%N eq_refl eq_refl eq_refl)
    as (w' & _ & Hcode & _).
  exact Hcode.
Defined.

(** C5 at an address that is no e-mail address, for a student not yet on
    record: the text file is refused by no 400, the request ends in the
    validation error of the Student record, a 500 response. *)
Lemma text_file_bad_address_is_not_400 :
  Py.str_in "text/plain" allowed_mime = false
  /\ fst (create_registration "2106000" "Budi" "x" (Some notes_txt)
            empty_world)
     = Raise (ValidationError "Student" "email")
  /\ status_code_of
       (fst (create_registration "2106000" "Budi" "x" (Some notes_txt)
               empty_world))
     = 500.
Proof. repeat split. Qed.

(** C5, as amended, on the sample: a text file with a valid address. *)
Lemma text_file_refused :
  status_code_of
    (fst (create_registration "2106000" "Budi" "budi@x.com" (Some notes_txt)
            empty_world)) = 400
  /\ payment
       (db (snd (create_registration "2106000" "Budi" "budi@x.com"
                   (Some notes_txt) empty_world))) = [].
Proof.
  assert (Htype : forall m, content_type notes_txt = Some m ->
                             Py.str_in m allowed_mime = false).
  { intros m [= <-]. reflexivity. }
  destruct (create_registration_unsupported_type empty_world "2106000" "Budi"
              "budi@x.com" notes_txt eq_refl eq_refl eq_refl Htype)
    as [Hpay Hcode].
  split; [|exact Hpay]. apply Hcode. left. discriminate.
Defined.

(** C7 on the sample: after a second registration of 2106000 the store holds
    the one record of Budi, with its identifier and creation time, and with
    the name and address of the second request. *)
Lemma budi_registers_again :
  student
    (db (snd (create_registration "2106000" "Budi S." "budi@y.org" None
                budi_world)))
  = [StudentDoc.mk 0%N "2106000" "Budi S." "budi@y.org" noon (Some noon)]
  /\ student_count "2106000"
       (db (snd (create_registration "2106000" "Budi S." "budi@y.org" None
                   budi_world))) = 1%nat.
Proof.
  destruct (create_registration_updates_student budi_world "2106000"
              "Budi S." "budi@y.org" None eq_refl eq_refl eq_refl eq_refl)
    as (before & s & after & Hsplit & _ & _ & Hafter & Hcount & _).
  split; [|exact Hcount].
  rewrite Hafter.
  destruct before as [|x before]; cbn in Hsplit.
  - injection Hsplit as <- <-. reflexivity.
  - injection Hsplit as _ Hnil. destruct before; discriminate.
Defined.

(** C9 on the sample: the payment stored for the zero-byte image is listed
    without a file link. *)
Lemma empty_png_listed_without_link :
  exists out,
    list_pending empty_png_world = (Return out, empty_png_world)
    /\ In (PendingOut.mk "000000000000000000000001" "2106000" "Budi"
             "budi@x.com" None) out.
Proof.
  assert (Hstored : In empty_png_payment (payment (db empty_png_world)))
    by (left; reflexivity).
  destruct (list_pending_empty_content empty_png_world empty_png_payment
              "image/png" Hstored eq_refl eq_refl eq_refl)
    as (Hentry & out & Hrun & Hin).
  exists out. split; [exact Hrun|]. rewrite Hentry in Hin. exact Hin.
Defined.

End Examples.

(* ================================================================== *)
(** * Further properties on the sample data *)

Module Scenarios.

Import Sample.

Lemma missing_name_raises :
  create_registration "2106000" "" "budi@x.com" None empty_world
  = (Raise (HTTPException 400 "Data tidak lengkap"), empty_world).
Proof.
  exact (create_registration_missing_field empty_world "2106000" ""
           "budi@x.com" None (or_intror (or_introl eq_refl))).
Defined.

Lemma budi_registration_stored :
  exists w' p,
    create_registration "2106000" "Budi" "budi@x.com" None empty_world
      = (Return (RegistrationOut.mk "Registrasi tersimpan"
                   (Bson.str (PaymentDoc._id p))), w')
    /\ payment (db w') = [p]
    /\ PaymentDoc.status p = "pending".
Proof.
  destruct (create_registration_creates_payment empty_world "2106000" "Budi"
              "budi@x.com" "budi@x.com" None eq_refl eq_refl eq_refl eq_refl
              eq_refl)
    as (w' & p & Hrun & Hpay & _ & _ & _ & Hstatus & _).
  exists w', p. repeat split; assumption.
Defined.

Lemma receipt_round_trip :
  exists out w' p data,
    create_registration "2106000" "Budi" "budi@x.com" (Some receipt_png)
      empty_world = (Return out, w')
    /\ PaymentDoc.file_data_b64 p = Some data
    /\ Base64.b64decode data = Some (list_byte_of_string "PNG")
    /\ PendingOut.file_url (pending_entry p)
       = Some ("data:image/png;base64," ++ data)%string.
Proof.
  destruct (create_registration_keeps_file empty_world "2106000" "Budi"
              "budi@x.com" "budi@x.com" receipt_png eq_refl eq_refl eq_refl
              eq_refl eq_refl)
    as (out & w' & p & data & Hrun & _ & _ & _ & Hdata & Hdec & Hurl).
  exists out, w', p, data. repeat split; try assumption.
  apply Hurl. discriminate.
Defined.

Lemma budi_twice_one_record :
  (student_count "2106000" (db (register_all budi_twice empty_world)) <= 1)%nat.
Proof.
  apply (register_all_at_most_one budi_twice empty_world).
  intros n. cbn. lia.
Defined.

Lemma verify_with_status_paid_is_400 :
  status_code_of
    (fst (verify_payment budi_payment_id (VerifyBody.mk "paid") budi_world))
  = 400.
Proof.
  exact (proj2 (verify_payment_invalid_status budi_world budi_payment_id
                  (VerifyBody.mk "paid") eq_refl)).
Defined.

Lemma verify_short_id_is_500 :
  status_code_of (fst (verify_payment "1" approve budi_world)) = 500.
Proof.
  assert (Hlen : String.length "1" <> 24%nat) by discriminate.
  exact (proj2 (verify_payment_wrong_length budi_world "1" approve eq_refl
                  Hlen)).
Defined.

Lemma budi_payment_approved :
  exists w' p',
    verify_payment budi_payment_id approve budi_world
      = (Return (VerifyOut.mk true), w')
    /\ payment (db w') = [p']
    /\ PaymentDoc.status p' = "approved"
    /\ fst (list_pending w') = Return [].
Proof.
  destruct (verify_payment_sets_status budi_world budi_payment_id approve
              1%N [] [] budi_payment eq_refl eq_refl eq_refl eq_refl eq_refl)
    as (w' & p' & Hrun & Hpay & Hstatus & _ & _ & Hlist).
  exists w', p'. repeat split; assumption.
Defined.

Lemma second_payment_verified :
  exists out w1 w2 p,
    create_registration "2106000" "Budi" "budi@x.com" None budi_world
      = (Return out, w1)
    /\ verify_payment (RegistrationOut.payment_id out) approve w1
       = (Return (VerifyOut.mk true), w2)
    /\ payment (db w2) = [budi_payment; p]
    /\ PaymentDoc.status p = "approved".
Proof.
  assert (Hfresh : forall q, In q (payment (db budi_world)) ->
                             (PaymentDoc._id q < next_id (db budi_world))%N).
  { intros q [<- | []]. reflexivity. }
  destruct (register_then_verify budi_world "2106000" "Budi" "budi@x.com"
              "budi@x.com" None approve eq_refl eq_refl eq_refl eq_refl
              eq_refl eq_refl Hfresh eq_refl)
    as (out & w1 & w2 & p & Hrun & Hverify & Hpay & _ & Hstatus).
  exists out, w1, w2, p. repeat split; assumption.
Defined.

Lemma result_with_status_maybe_is_400 :
  status_code_of
    (fst (submit_result undecided empty_world)) = 400.
Proof.
  exact (proj2 (submit_result_invalid_status empty_world undecided
                  eq_refl)).
Defined.

Lemma first_pass_stored :
  exists out w' t,
    submit_result first_pass empty_world = (Return out, w')
    /\ test (db w') = [t]
    /\ TestDoc.attempt t = Some 1.
Proof.
  assert (Hone : 1 <= ResultBody.attempt first_pass) by (cbn; lia).
  destruct (submit_result_appends_test empty_world first_pass eq_refl Hone)
    as (out & w' & t & Hrun & _ & Htest & _ & Hatt & _).
  exists out, w', t. repeat split; assumption.
Defined.

Lemma first_pass_stored_twice :
  exists out1 w1 out2 w2 t1 t2,
    submit_result first_pass empty_world = (Return out1, w1)
    /\ submit_result first_pass w1 = (Return out2, w2)
    /\ test (db w2) = [t1; t2]
    /\ TestDoc.attempt t1 = TestDoc.attempt t2.
Proof.
  assert (Hone : 1 <= ResultBody.attempt first_pass) by (cbn; lia).
  destruct (submit_result_twice empty_world first_pass eq_refl Hone)
    as (out1 & w1 & out2 & w2 & t1 & t2 & H1 & H2 & Htest & _ & Ha1 & Ha2).
  exists out1, w1, out2, w2, t1, t2. repeat split; try assumption.
  congruence.
Defined.

Lemma first_pass_in_history :
  exists url w1 out w2 e,
    submit_result first_pass empty_world
      = (Return (ResultOut.mk true (Some url)), w1)
    /\ student_history "2106000" w1 = (Return out, w2)
    /\ In e out
    /\ HistoryOut.certificate_url e = Some url.
Proof.
  assert (Hone : 1 <= ResultBody.attempt first_pass) by (cbn; lia).
  destruct (submit_then_history empty_world first_pass eq_refl Hone
              (fun i j => eq_refl))
    as (url & w1 & out & w2 & e & Hrun & Hhist & Hin & _ & _ & _ & Hurl).
  exists url, w1, out, w2, e. repeat split; assumption.
Defined.

Lemma store_down_reported :
  exists r,
    test_database (Some store_down) (fun _ => None) = Return r
    /\ database r = "❌ Error: connection refused".
Proof.
  destruct (test_database_exception_text store_down (fun _ => None)
              "connection refused" eq_refl)
    as (r & shown & rest & Hrun & Hdb & _ & _ & Hall).
  exists r. split; [exact Hrun|]. rewrite Hdb, Hall; [reflexivity|].
  cbn. lia.
Defined.

Lemma budi_student_created :
  student
    (db (snd (create_registration "2106000" "Budi" "budi@x.com"
                (Some notes_txt) empty_world)))
  = [budi].
Proof.
  exact (create_registration_creates_student empty_world "2106000" "Budi"
           "budi@x.com" "budi@x.com" (Some notes_txt) eq_refl eq_refl
           eq_refl eq_refl eq_refl).
Defined.

Lemma second_payment_listed :
  exists out w' before entry,
    create_registration "2106000" "Budi" "budi@x.com" None budi_world
      = (Return out, w')
    /\ fst (list_pending budi_world) = Return before
    /\ fst (list_pending w') = Return (before ++ [entry])%list
    /\ PendingOut.npm entry = "2106000".
Proof.
  destruct (create_registration_listed budi_world "2106000" "Budi"
              "budi@x.com" "budi@x.com" None eq_refl eq_refl eq_refl eq_refl
              eq_refl)
    as (out & w' & before & entry & Hrun & Hb & Ha & _ & Hnpm & _).
  exists out, w', before, entry. repeat split; assumption.
Defined.

End Scenarios.
